(** * Skincare pipeline router (app/routers/skincare.py)

    A shallow embedding of the four phase endpoints and the status query of
    the skincare router.  The router is glue code: every interesting step is
    a call into a collaborator (the session store [data_store] and the four
    phase services).  Endpoints are therefore embedded as programs over a
    signature of outside calls, with Python's [raise] and [try]/[except]
    written out, and run against a handler that answers the calls. *)

From Stdlib Require Import ZArith String List.
From stdpp Require Import gmap strings stringmap list fin_maps.
Import ListNotations.
Local Open Scope string_scope.
Local Open Scope Z_scope.
Set Warnings "-register-all".

(** ** Python values *)

(** JSON-serialisable Python values: the phase payloads, the form and the
    dictionaries the endpoints return.  [JNull] is Python's [None]; a [dict]
    keeps its items in insertion order. *)
Inductive json : Type :=
| JNull
| JBool (b : bool)
| JNum (n : Z)
| JStr (s : string)
| JList (items : list json)
| JDict (items : list (string * json)).

(** Python truthiness, as tested by [if not x]. *)
Definition truthy (v : json) : bool :=
  match v with
  | JNull => false
  | JBool b => b
  | JNum n => negb (n =? 0)
  | JStr s => negb (String.eqb s "")
  | JList items => match items with [] => false | _ :: _ => true end
  | JDict items => match items with [] => false | _ :: _ => true end
  end.

(** Item lookup in a [dict], first match on the key. *)
Fixpoint assoc (key : string) (items : list (string * json)) : option json :=
  match items with
  | [] => None
  | (k, v) :: rest => if String.eqb k key then Some v else assoc key rest
  end.

(** [d.get(key, default)] on the items of a [dict]. *)
Definition dict_get (items : list (string * json)) (key : string) (default : json) : json :=
  match assoc key items with
  | Some v => v
  | None => default
  end.

(** The name Python prints for the class of a value. *)
Definition type_name (v : json) : string :=
  match v with
  | JNull => "NoneType"
  | JBool _ => "bool"
  | JNum _ => "int"
  | JStr _ => "str"
  | JList _ => "list"
  | JDict _ => "dict"
  end.

(** [s.startswith(p)]. *)
Definition startswith (s p : string) : bool := String.prefix p s.

(** ** Exceptions *)

(** The instances of [Exception].  [HTTPException] is the only exception
    class the router raises itself; every other instance of [Exception] is
    kept as its class name and its [str]. *)
Inductive exn : Type :=
| HTTPException (status_code : Z) (detail : string)
| PyError (cls : string) (msg : string).

(** What a step gives: a value, an instance of [Exception], or an exception
    that derives from [BaseException] only ([asyncio.CancelledError] at an
    [await], [KeyboardInterrupt], [SystemExit]), kept as its class name and
    its [str].  An [except Exception] clause does not catch the latter. *)
Inductive result (A : Type) : Type :=
| Ok (a : A)
| Exc (e : exn)
| BaseExc (cls : string) (msg : string).
Arguments Ok {A} a.
Arguments Exc {A} e.
Arguments BaseExc {A} cls msg.

Definition HTTP_200_OK : Z := 200.
Definition HTTP_201_CREATED : Z := 201.
Definition HTTP_400_BAD_REQUEST : Z := 400.
Definition HTTP_404_NOT_FOUND : Z := 404.
Definition HTTP_500_INTERNAL_SERVER_ERROR : Z := 500.

Definition attribute_error (v : json) (attr : string) : exn :=
  PyError "AttributeError"
    ("'" ++ type_name v ++ "' object has no attribute '" ++ attr ++ "'").

(** [v.get(key, default)] on any value: only a [dict] has [get]. *)
Definition py_get (v : json) (key : string) (default : json) : result json :=
  match v with
  | JDict items => Ok (dict_get items key default)
  | _ => Exc (attribute_error v "get")
  end.

(** ** Requests and service results *)

(** The upload of phase 2: [content_type] is optional in the framework. *)
Record UploadFile : Type := {
  filename : option string;
  content_type : option string;
  content : string
}.

(** What [phase1_service.submit_form] hands back under ["stored_data"]:
    either an object with a [dict()] method or plain data. *)
Inductive stored_data : Type :=
| Model (fields : json)
| Plain (data : json).

Record form_result : Type := {
  result_stored_data : stored_data;
  result_form_index : json
}.

(** What [phase2_service.analyze_face] hands back: a response object with a
    [body] of bytes, or the analysis itself. *)
Inductive analysis_result : Type :=
| WithBody (body : string)
| Direct (analysis : json).

(** ** Calls into collaborators *)

Inductive call : Type :=
| phase1_service_submit_form (form_data : json)
| phase1_service_list_forms
| phase2_service_analyze_face (image_data : string)
| phase3_service_budget_distribution (input : json)
| phase4_service_create_routine (input : json)
| data_store_create_session
| data_store_session_exists (session_id : string)
| data_store_save_phase_data (session_id phase : string) (payload : json)
| data_store_load_phase_data (session_id phase : string)
| data_store_get_session_status (session_id : string).

(** The type of the value a call returns when it does not raise. *)
Definition ret (c : call) : Type :=
  match c with
  | phase1_service_submit_form _ => form_result
  | phase1_service_list_forms => list json
  | phase2_service_analyze_face _ => analysis_result
  | phase3_service_budget_distribution _ => json
  | phase4_service_create_routine _ => json
  | data_store_create_session => string
  | data_store_session_exists _ => bool
  | data_store_save_phase_data _ _ _ => bool
  | data_store_load_phase_data _ _ => json
  | data_store_get_session_status _ => json
  end.

(** ** Programs *)

(** A program returns, raises, or makes a call and continues with the
    call's outcome (a value or an exception). *)
Inductive py (A : Type) : Type :=
| Return (a : A)
| Raise (e : exn)
| RaiseBase (cls : string) (msg : string)
| Do (c : call) (k : result (ret c) -> py A).
Arguments Return {A} a.
Arguments Raise {A} e.
Arguments RaiseBase {A} cls msg.
Arguments Do {A} c k.

Fixpoint bind {A B : Type} (p : py A) (f : A -> py B) : py B :=
  match p with
  | Return a => f a
  | Raise e => Raise e
  | RaiseBase cls msg => RaiseBase cls msg
  | Do c k => Do c (fun r => bind (k r) f)
  end.

(** [try: p except Exception as e: h e].  An exception that is not an
    instance of [Exception] is not caught. *)
Fixpoint try_except {A : Type} (p : py A) (h : exn -> py A) : py A :=
  match p with
  | Return a => Return a
  | Raise e => h e
  | RaiseBase cls msg => RaiseBase cls msg
  | Do c k => Do c (fun r => try_except (k r) h)
  end.

(** A call whose exception propagates. *)
Definition invoke (c : call) : py (ret c) :=
  Do c (fun r =>
          match r with
          | Ok a => Return a
          | Exc e => Raise e
          | BaseExc cls msg => RaiseBase cls msg
          end).

(** A pure step that may raise. *)
Definition lift {A : Type} (r : result A) : py A :=
  match r with
  | Ok a => Return a
  | Exc e => Raise e
  | BaseExc cls msg => RaiseBase cls msg
  end.

Notation "x <- p ;; q" := (bind p (fun x => q))
  (at level 100, p at next level, right associativity).
Notation "p ;;; q" := (bind p (fun _ => q))
  (at level 100, right associativity).

(** [if cond: raise e]. *)
Definition raise_if (cond : bool) (e : exn) : py unit :=
  if cond then Raise e else Return tt.

(** ** Library functions the router relies on

    Pure functions of the framework and of the schema modules, which are not
    part of the router: [str] of an [HTTPException], [json.loads] of the
    decoded body of a response, and the two response models, each applied to
    its keyword arguments [**payload] (validation may raise). *)
Record Library : Type := {
  str_HTTPException : Z -> string -> string;
  json_loads : string -> result json;
  ProductRecommendationResponse : json -> result json;
  SkincareRoutineResponse : json -> result json
}.

(** ** The endpoints *)

Section Router.

Variable lib : Library.

(** [str(e)]. *)
Definition str (e : exn) : string :=
  match e with
  | HTTPException status_code detail => str_HTTPException lib status_code detail
  | PyError _ msg => msg
  end.

(** [except HTTPException: raise] followed by
    [except Exception as e: raise HTTPException(500, prefix + str(e))]. *)
Definition reraise_http (prefix : string) {A : Type} (e : exn) : py A :=
  match e with
  | HTTPException _ _ => Raise e
  | PyError _ _ =>
      Raise (HTTPException HTTP_500_INTERNAL_SERVER_ERROR (prefix ++ str e))
  end.

(** [x.dict() if hasattr(x, 'dict') else x]. *)
Definition to_dict (x : stored_data) : json :=
  match x with
  | Model fields => fields
  | Plain data => data
  end.

Definition phase1_form_analysis (form_data : json) : py json :=
  try_except
    (result <- invoke (phase1_service_submit_form form_data) ;;
     session_id <- invoke data_store_create_session ;;
     let form_dict := to_dict (result_stored_data result) in
     success <- invoke (data_store_save_phase_data session_id "phase1" form_dict) ;;
     raise_if (negb success)
       (HTTPException HTTP_500_INTERNAL_SERVER_ERROR "Failed to save form data") ;;;
     Return (JDict [
       ("session_id", JStr session_id);
       ("status", JStr "success");
       ("message", JStr "Form data processed and saved successfully");
       ("next_phase", JStr "Phase 2: Upload facial image for analysis");
       ("form_index", result_form_index result);
       ("data", form_dict) ]))
    (fun e =>
       Raise (HTTPException HTTP_500_INTERNAL_SERVER_ERROR
                ("Phase 1 failed: " ++ str e))).

(** [file.content_type.startswith("image/")]: the attribute lookup fails
    on [None]. *)
Definition content_type_startswith (file : UploadFile) (p : string) : result bool :=
  match content_type file with
  | Some ct => Ok (startswith ct p)
  | None => Exc (attribute_error JNull "startswith")
  end.

Definition phase2_image_analysis (session_id : string) (file : UploadFile) : py json :=
  try_except
    (found <- invoke (data_store_session_exists session_id) ;;
     raise_if (negb found)
       (HTTPException HTTP_404_NOT_FOUND "Session not found. Complete Phase 1 first.") ;;;
     is_image <- lift (content_type_startswith file "image/") ;;
     raise_if (negb is_image)
       (HTTPException HTTP_400_BAD_REQUEST "File must be an image (JPEG, PNG, etc.)") ;;;
     let image_data := content file in
     analysis_result <- invoke (phase2_service_analyze_face image_data) ;;
     analysis_json <- match analysis_result with
                      | WithBody body => lift (json_loads lib body)
                      | Direct analysis => Return analysis
                      end ;;
     success <- invoke (data_store_save_phase_data session_id "phase2" analysis_json) ;;
     raise_if (negb success)
       (HTTPException HTTP_500_INTERNAL_SERVER_ERROR "Failed to save analysis data") ;;;
     Return (JDict [
       ("session_id", JStr session_id);
       ("status", JStr "success");
       ("message", JStr "Image analysis completed and saved successfully");
       ("next_phase", JStr "Phase 3: Generate product recommendations");
       ("analysis", analysis_json) ]))
    (reraise_http "Phase 2 failed: ").

Definition phase3_product_recommendations (session_id : string) : py json :=
  try_except
    (form_data <- invoke (data_store_load_phase_data session_id "phase1") ;;
     analysis_data <- invoke (data_store_load_phase_data session_id "phase2") ;;
     raise_if (negb (truthy form_data))
       (HTTPException HTTP_400_BAD_REQUEST "Missing form data. Complete Phase 1 first.") ;;;
     raise_if (negb (truthy analysis_data))
       (HTTPException HTTP_400_BAD_REQUEST "Missing image analysis. Complete Phase 2 first.") ;;;
     skin_analysis <- lift (py_get analysis_data "ai_output" analysis_data) ;;
     let phase3_input := JDict [
       ("form_data", form_data);
       ("skin_analysis", skin_analysis) ] in
     recommendations <- invoke (phase3_service_budget_distribution phase3_input) ;;
     success <- invoke (data_store_save_phase_data session_id "phase3" recommendations) ;;
     raise_if (negb success)
       (HTTPException HTTP_500_INTERNAL_SERVER_ERROR "Failed to save recommendations") ;;;
     lift (ProductRecommendationResponse lib recommendations))
    (reraise_http "Phase 3 failed: ").

Definition phase4_routine_creation (session_id : string) : py json :=
  try_except
    (form_data <- invoke (data_store_load_phase_data session_id "phase1") ;;
     recommendations <- invoke (data_store_load_phase_data session_id "phase3") ;;
     raise_if (negb (truthy form_data))
       (HTTPException HTTP_400_BAD_REQUEST "Missing form data. Complete Phase 1 first.") ;;;
     raise_if (negb (truthy recommendations))
       (HTTPException HTTP_400_BAD_REQUEST
          "Missing product recommendations. Complete Phase 3 first.") ;;;
     products <- lift (py_get recommendations "products" (JDict [])) ;;
     let phase4_input := JDict [
       ("form_data", form_data);
       ("product_recommendations", products) ] in
     routine_result <- invoke (phase4_service_create_routine phase4_input) ;;
     success <- invoke (data_store_save_phase_data session_id "phase4" routine_result) ;;
     raise_if (negb success)
       (HTTPException HTTP_500_INTERNAL_SERVER_ERROR "Failed to save routine") ;;;
     lift (SkincareRoutineResponse lib routine_result))
    (reraise_http "Phase 4 failed: ").

(** [v.items()]: only a [dict] has [items]. *)
Definition py_items (v : json) : result (list (string * json)) :=
  match v with
  | JDict items => Ok items
  | _ => Exc (attribute_error v "items")
  end.

(** The [if]/[elif] chain of the status endpoint over the [get] of the
    phase flags. *)
Definition next_phase_of (flag : string -> bool) : string :=
  if negb (flag "phase1") then "Phase 1: Submit form data"
  else if negb (flag "phase2") then "Phase 2: Upload facial image"
  else if negb (flag "phase3") then "Phase 3: Generate product recommendations"
  else if negb (flag "phase4") then "Phase 4: Create skincare routine"
  else "Pipeline complete!".

Definition get_session_status (session_id : string) : py json :=
  try_except
    (found <- invoke (data_store_session_exists session_id) ;;
     raise_if (negb found)
       (HTTPException HTTP_404_NOT_FOUND "Session not found") ;;;
     phase_status_result <- invoke (data_store_get_session_status session_id) ;;
     phase_status <- lift (py_get phase_status_result "phases" (JDict [])) ;;
     items <- lift (py_items phase_status) ;;
     let completed_phases :=
       map (fun '(phase, _) => JStr phase)
           (List.filter (fun '(_, completed) => truthy completed) items) in
     let next_phase :=
       next_phase_of (fun phase => truthy (dict_get items phase (JBool false))) in
     progress <- lift (py_get phase_status_result "progress_percentage" (JNum 0)) ;;
     Return (JDict [
       ("session_id", JStr session_id);
       ("completed_phases", JList completed_phases);
       ("total_phases", JNum 4);
       ("progress_percentage", progress);
       ("next_phase", JStr next_phase);
       ("phase_details", phase_status);
       ("pipeline_complete",
         JBool (Z.of_nat (length completed_phases) =? 4)) ]))
    (reraise_http "Status check failed: ").

Definition list_forms : py json :=
  try_except
    (forms <- invoke phase1_service_list_forms ;;
     Return (JDict [
       ("total_forms", JNum (Z.of_nat (length forms)));
       ("forms", JList forms) ]))
    (fun e =>
       Raise (HTTPException HTTP_500_INTERNAL_SERVER_ERROR
                ("Failed to list forms: " ++ str e))).

End Router.

(** ** Running a program *)

(** One call as it happened: the call and what it answered. *)
Inductive event : Type :=
| Event (c : call) (r : result (ret c)).

Definition event_call (ev : event) : call :=
  match ev with Event c _ => c end.

(** The answer of a save, for the events that are saves. *)
Definition save_answer (ev : event) : option (result bool) :=
  match ev with
  | Event (data_store_save_phase_data _ _ _) r => Some r
  | _ => None
  end.

Definition is_save (ev : event) : bool :=
  match save_answer ev with Some _ => true | None => false end.

(** The saves among the events of a run. *)
Definition saves (evs : list event) : list event := List.filter is_save evs.

Section Run.

(** The state of everything outside the router, and the handler that
    answers a call in a state: the call returns or raises, and the state
    moves on. *)
Context {W : Type} (handle : forall c : call, W -> result (ret c) * W).

(** The outcome of a run, the calls made in order with their answers, and
    the final state. *)
Fixpoint run {A : Type} (p : py A) (w : W) : result A * list event * W :=
  match p with
  | Return a => (Ok a, [], w)
  | Raise e => (Exc e, [], w)
  | RaiseBase cls msg => (BaseExc cls msg, [], w)
  | Do c k =>
      let '(r, w1) := handle c w in
      let '(out, evs, w2) := run (k r) w1 in
      (out, Event c r :: evs, w2)
  end.

End Run.

Definition outcome {A W : Type} (x : result A * list event * W) : result A := fst (fst x).
Definition trace {A W : Type} (x : result A * list event * W) : list event := snd (fst x).
Definition final {A W : Type} (x : result A * list event * W) : W := snd x.

(** ** The session store *)

Module DataStore.

(** Modelled from the spec: the session store [data_store] of
    [app.connection_logic], whose code is not part of the router.  It owns
    the identifiers created so far and the payloads saved under
    (session id, phase name).  [faults] lists whether each coming
    persistence attempt fails: a save that fails answers [False] and
    leaves the store as it was. *)
Record Store : Type := {
  created : gset string;
  payloads : gmap (string * string) json;
  faults : list bool
}.

Definition phase_names : list string := ["phase1"; "phase2"; "phase3"; "phase4"].

(** [create_session() -> SessionId]: a fresh identifier that does not
    collide with an existing session. *)
Definition create_session (s : Store) : string * Store :=
  let id := fresh_string_of_set "session" (created s) in
  (id, {| created := {[ id ]} ∪ created s;
          payloads := payloads s;
          faults := faults s |}).

(** [session_exists(id) -> bool]: true iff [id] was previously created. *)
Definition session_exists (id : string) (s : Store) : bool :=
  bool_decide (id ∈ created s).

(** [save_phase_data(id, phase_name, payload) -> bool]: persists the
    payload under (id, phase_name), overwriting; false on a persistence
    failure. *)
Definition save_phase_data (id phase : string) (payload : json) (s : Store)
  : bool * Store :=
  match faults s with
  | true :: rest =>
      (false, {| created := created s; payloads := payloads s; faults := rest |})
  | false :: rest =>
      (true, {| created := created s;
                payloads := <[(id, phase) := payload]> (payloads s);
                faults := rest |})
  | [] =>
      (true, {| created := created s;
                payloads := <[(id, phase) := payload]> (payloads s);
                faults := [] |})
  end.

(** [load_phase_data(id, phase_name)]: the saved payload, or [None] if
    never saved. *)
Definition load_phase_data (id phase : string) (s : Store) : json :=
  match payloads s !! (id, phase) with
  | Some payload => payload
  | None => JNull
  end.

(** The completion flag of a phase: its payload is present. *)
Definition completed (s : Store) (id phase : string) : bool :=
  bool_decide (is_Some (payloads s !! (id, phase))).

Definition completed_count (s : Store) (id : string) : nat :=
  length (List.filter (completed s id) phase_names).

(** [get_session_status(id)]: the four flags and
    [progress_percentage = (#completed / 4) * 100]. *)
Definition get_session_status (id : string) (s : Store) : json :=
  JDict [
    ("phases", JDict (map (fun phase => (phase, JBool (completed s id phase))) phase_names));
    ("progress_percentage", JNum (Z.of_nat (completed_count s id) * 100 / 4)) ].

(** The phase services are opaque: any functions of their inputs. *)
Record Services : Type := {
  svc_submit_form : json -> result form_result;
  svc_list_forms : result (list json);
  svc_analyze_face : string -> result analysis_result;
  svc_budget_distribution : json -> result json;
  svc_create_routine : json -> result json
}.

(** The handler of a world made of this store and of given services. *)
Definition handle (svc : Services) (c : call) (s : Store) : result (ret c) * Store :=
  match c as c0 return result (ret c0) * Store with
  | phase1_service_submit_form form_data => (svc_submit_form svc form_data, s)
  | phase1_service_list_forms => (svc_list_forms svc, s)
  | phase2_service_analyze_face image_data => (svc_analyze_face svc image_data, s)
  | phase3_service_budget_distribution input => (svc_budget_distribution svc input, s)
  | phase4_service_create_routine input => (svc_create_routine svc input, s)
  | data_store_create_session =>
      let '(id, s1) := create_session s in (Ok id, s1)
  | data_store_session_exists id => (Ok (session_exists id s), s)
  | data_store_save_phase_data id phase payload =>
      let '(success, s1) := save_phase_data id phase payload s in (Ok success, s1)
  | data_store_load_phase_data id phase => (Ok (load_phase_data id phase s), s)
  | data_store_get_session_status id => (Ok (get_session_status id s), s)
  end.

End DataStore.

(** The calls that change the store. *)
Definition store_write (c : call) : bool :=
  match c with
  | data_store_create_session => true
  | data_store_save_phase_data _ _ _ => true
  | _ => false
  end.

(** ** The status scan, as the specification words it

    The four phases in their fixed order with their labels; the next phase
    is the label of the first phase whose flag is not set, or the marker of
    a complete pipeline. *)
Definition phase_labels : list (string * string) := [
  ("phase1", "Phase 1: Submit form data");
  ("phase2", "Phase 2: Upload facial image");
  ("phase3", "Phase 3: Generate product recommendations");
  ("phase4", "Phase 4: Create skincare routine") ].

Definition first_incomplete (flag : string -> bool) : string :=
  match List.find (fun '(phase, _) => negb (flag phase)) phase_labels with
  | Some (_, label) => label
  | None => "Pipeline complete!"
  end.

(** What the specification promises of every successful phase response:
    the session id, a status marker, the next phase and the payload. *)
Definition has_session_id (session_id : string) (response : json) : Prop :=
  exists items, response = JDict items /\ assoc "session_id" items = Some (JStr session_id).

(** ** A concrete world *)

(** Starlette's [HTTPException.__str__] is [f"{status_code}: {detail}"];
    the response models here accept any payload and keep it as it is. *)
Definition starlette : Library := {|
  str_HTTPException := fun status_code detail => pretty status_code ++ ": " ++ detail;
  json_loads := fun _ =>
    Exc (PyError "JSONDecodeError" "Expecting value: line 1 column 1 (char 0)");
  ProductRecommendationResponse := fun payload => Ok payload;
  SkincareRoutineResponse := fun payload => Ok payload
|}.

Definition sample_form : json := JDict [("skin_type", JStr "oily"); ("budget", JNum 50)].
Definition sample_analysis : json := JDict [("ai_output", JDict [("acne", JBool true)])].
Definition sample_recommendations : json := JDict [("products", JDict [("cleanser", JStr "gel")])].
Definition sample_routine : json := JDict [("morning", JList [JStr "cleanser"])].

Definition sample_services : DataStore.Services := {|
  DataStore.svc_submit_form := fun form_data =>
    Ok {| result_stored_data := Model form_data; result_form_index := JNum 0 |};
  DataStore.svc_list_forms := Ok [];
  DataStore.svc_analyze_face := fun _ => Ok (Direct sample_analysis);
  DataStore.svc_budget_distribution := fun _ => Ok sample_recommendations;
  DataStore.svc_create_routine := fun _ => Ok sample_routine
|}.

Definition sample_handle := DataStore.handle sample_services.

Definition empty_store : DataStore.Store :=
  {| DataStore.created := ∅; DataStore.payloads := ∅; DataStore.faults := [] |}.

(** A store whose next persistence attempt fails. *)
Definition failing_store : DataStore.Store :=
  {| DataStore.created := ∅; DataStore.payloads := ∅; DataStore.faults := [true] |}.

(** Session ["s1"] with the given payloads saved. *)
Definition store_with (saved : list (string * json)) (faults : list bool) : DataStore.Store :=
  {| DataStore.created := {[ "s1" ]};
     DataStore.payloads :=
       list_to_map (map (fun '(phase, payload) => (("s1", phase), payload)) saved);
     DataStore.faults := faults |}.

Definition pdf_upload : UploadFile :=
  {| filename := Some "face.pdf"; content_type := Some "application/pdf"; content := "%PDF" |}.

Definition untyped_upload : UploadFile :=
  {| filename := Some "face.png"; content_type := None; content := "PNG" |}.

Definition png_upload : UploadFile :=
  {| filename := Some "face.png"; content_type := Some "image/png"; content := "PNG" |}.

(** ** Reading a trace *)

(** How a call failed, if it did: it raised an instance of [Exception], or
    an exception that derives from [BaseException] only. *)
Inductive failure : Type :=
| Raised (e : exn)
| Escaped (cls msg : string).

Definition event_failure (ev : event) : option failure :=
  match ev with
  | Event _ (Ok _) => None
  | Event _ (Exc e) => Some (Raised e)
  | Event _ (BaseExc cls msg) => Some (Escaped cls msg)
  end.

(** What an endpoint makes of the failure of a call, when its
    [except Exception] clause turns an exception [e] into [wrap e]: an
    exception that is not an instance of [Exception] goes out as it is. *)
Definition surfaced {A : Type} (wrap : exn -> exn) (f : failure) : result A :=
  match f with
  | Raised e => Exc (wrap e)
  | Escaped cls msg => BaseExc cls msg
  end.

(** What the boundary of phases 2, 3, 4 and of the status query makes of an
    exception of the body. *)
Definition boundary (prefix : string) (e : exn) : exn :=
  match e with
  | HTTPException _ _ => e
  | PyError _ msg => HTTPException HTTP_500_INTERNAL_SERVER_ERROR (prefix ++ msg)
  end.

(** The keys of a [dict] whose value is truthy, in order:
    [[phase for phase, completed in d.items() if completed]]. *)
Definition truthy_keys (items : list (string * json)) : list string :=
  map fst (List.filter (fun item => truthy (snd item)) items).

(** ** More of the concrete world *)

(** A store and services cut down to a status: every session exists, the
    status read answers [status], and every other call raises. *)
Definition stub_handle (status : result json) (c : call) (w : unit)
  : result (ret c) * unit :=
  match c as c0 return result (ret c0) * unit with
  | data_store_session_exists _ => (Ok true, tt)
  | data_store_get_session_status _ => (status, tt)
  | _ => (Exc (PyError "ConnectionError" "service unavailable"), tt)
  end.

(** A store whose load of the given phase is cancelled: every other load
    answers the sample form, and every other call raises. *)
Definition cancelling_handle (phase : string) (c : call) (w : unit)
  : result (ret c) * unit :=
  match c as c0 return result (ret c0) * unit with
  | data_store_load_phase_data _ loaded =>
      if String.eqb loaded phase
      then (BaseExc "CancelledError" "", tt)
      else (Ok sample_form, tt)
  | _ => (Exc (PyError "ConnectionError" "service unavailable"), tt)
  end.

(** Response models that refuse every payload. *)
Definition strict_models : Library := {|
  str_HTTPException := str_HTTPException starlette;
  json_loads := json_loads starlette;
  ProductRecommendationResponse := fun _ =>
    Exc (PyError "ValidationError" "1 validation error for ProductRecommendationResponse");
  SkincareRoutineResponse := fun _ =>
    Exc (PyError "ValidationError" "1 validation error for SkincareRoutineResponse")
|}.

(** * Properties *)

(** ** Running programs *)

Section RunFacts.

Context {W : Type} (handle : forall c : call, W -> result (ret c) * W).

Lemma run_bind {A B : Type} (p : py A) (f : A -> py B) (w : W) :
  run handle (bind p f) w =
    match run handle p w with
    | (Ok a, evs, w1) =>
        let '(out, evs', w2) := run handle (f a) w1 in (out, (evs ++ evs')%list, w2)
    | (Exc e, evs, w1) => (Exc e, evs, w1)
    | (BaseExc cls msg, evs, w1) => (BaseExc cls msg, evs, w1)
    end.
Proof.
  revert w. induction p as [a | e | cls msg | c k IH]; intros w; simpl.
  - destruct (run handle (f a) w) as [[out evs] w2]. reflexivity.
  - reflexivity.
  - reflexivity.
  - destruct (handle c w) as [r w1]. rewrite IH.
    destruct (run handle (k r) w1) as [[[a | e | cls msg] evs] w2]; try reflexivity.
    destruct (run handle (f a) w2) as [[out evs'] w3]. reflexivity.
Qed.

Lemma run_try_except {A : Type} (p : py A) (h : exn -> py A) (w : W) :
  run handle (try_except p h) w =
    match run handle p w with
    | (Ok a, evs, w1) => (Ok a, evs, w1)
    | (Exc e, evs, w1) =>
        let '(out, evs', w2) := run handle (h e) w1 in (out, (evs ++ evs')%list, w2)
    | (BaseExc cls msg, evs, w1) => (BaseExc cls msg, evs, w1)
    end.
Proof.
  revert w. induction p as [a | e | cls msg | c k IH]; intros w; simpl.
  - reflexivity.
  - destruct (run handle (h e) w) as [[out evs] w2]. reflexivity.
  - reflexivity.
  - destruct (handle c w) as [r w1]. rewrite IH.
    destruct (run handle (k r) w1) as [[[a | e | cls msg] evs] w2]; try reflexivity.
    destruct (run handle (h e) w2) as [[out evs'] w3]. reflexivity.
Qed.

(** A handler that only raises makes no call: whatever the body did is all
    that happened. *)
Lemma run_try_except_raise {A : Type} (p : py A) (h : exn -> exn) (w : W) :
  run handle (try_except p (fun e => Raise (h e))) w =
    match run handle p w with
    | (Ok a, evs, w1) => (Ok a, evs, w1)
    | (Exc e, evs, w1) => (Exc (h e), evs, w1)
    | (BaseExc cls msg, evs, w1) => (BaseExc cls msg, evs, w1)
    end.
Proof.
  rewrite run_try_except.
  destruct (run handle p w) as [[[a | e | cls msg] evs] w1]; simpl; try reflexivity.
  rewrite app_nil_r. reflexivity.
Qed.

End RunFacts.

(** ** The endpoints against any store and any services *)

Section RouterFacts.

Context (lib : Library) {W : Type} (handle : forall c : call, W -> result (ret c) * W).

(** Phase 2 on a session the store does not know. *)
Lemma phase2_unknown_session (w w1 : W) (session_id : string) (file : UploadFile) :
  handle (data_store_session_exists session_id) w = (Ok false, w1) ->
  run handle (phase2_image_analysis lib session_id file) w =
    (Exc (HTTPException 404 "Session not found. Complete Phase 1 first."),
     [Event (data_store_session_exists session_id) (Ok false)], w1).
Proof.
  intros Hexists. unfold phase2_image_analysis. simpl.
  rewrite Hexists. reflexivity.
Qed.

(** Phases 3 and 4 stop after their two loads when a loaded payload is not
    truthy. *)
Lemma phase3_missing_form (w w1 w2 : W) (session_id : string) (form_data analysis_data : json) :
  handle (data_store_load_phase_data session_id "phase1") w = (Ok form_data, w1) ->
  handle (data_store_load_phase_data session_id "phase2") w1 = (Ok analysis_data, w2) ->
  truthy form_data = false ->
  run handle (phase3_product_recommendations lib session_id) w =
    (Exc (HTTPException 400 "Missing form data. Complete Phase 1 first."),
     [Event (data_store_load_phase_data session_id "phase1") (Ok form_data);
      Event (data_store_load_phase_data session_id "phase2") (Ok analysis_data)], w2).
Proof.
  intros H1 H2 Hform. unfold phase3_product_recommendations. simpl.
  rewrite H1. simpl. rewrite H2. simpl. rewrite Hform. reflexivity.
Qed.

Lemma phase3_missing_analysis (w w1 w2 : W) (session_id : string) (form_data analysis_data : json) :
  handle (data_store_load_phase_data session_id "phase1") w = (Ok form_data, w1) ->
  handle (data_store_load_phase_data session_id "phase2") w1 = (Ok analysis_data, w2) ->
  truthy form_data = true ->
  truthy analysis_data = false ->
  run handle (phase3_product_recommendations lib session_id) w =
    (Exc (HTTPException 400 "Missing image analysis. Complete Phase 2 first."),
     [Event (data_store_load_phase_data session_id "phase1") (Ok form_data);
      Event (data_store_load_phase_data session_id "phase2") (Ok analysis_data)], w2).
Proof.
  intros H1 H2 Hform Hanalysis. unfold phase3_product_recommendations. simpl.
  rewrite H1. simpl. rewrite H2. simpl. rewrite Hform, Hanalysis. reflexivity.
Qed.

Lemma phase4_missing_form (w w1 w2 : W) (session_id : string) (form_data recommendations : json) :
  handle (data_store_load_phase_data session_id "phase1") w = (Ok form_data, w1) ->
  handle (data_store_load_phase_data session_id "phase3") w1 = (Ok recommendations, w2) ->
  truthy form_data = false ->
  run handle (phase4_routine_creation lib session_id) w =
    (Exc (HTTPException 400 "Missing form data. Complete Phase 1 first."),
     [Event (data_store_load_phase_data session_id "phase1") (Ok form_data);
      Event (data_store_load_phase_data session_id "phase3") (Ok recommendations)], w2).
Proof.
  intros H1 H2 Hform. unfold phase4_routine_creation. simpl.
  rewrite H1. simpl. rewrite H2. simpl. rewrite Hform. reflexivity.
Qed.

Lemma phase4_missing_recommendations (w w1 w2 : W) (session_id : string)
    (form_data recommendations : json) :
  handle (data_store_load_phase_data session_id "phase1") w = (Ok form_data, w1) ->
  handle (data_store_load_phase_data session_id "phase3") w1 = (Ok recommendations, w2) ->
  truthy form_data = true ->
  truthy recommendations = false ->
  run handle (phase4_routine_creation lib session_id) w =
    (Exc (HTTPException 400 "Missing product recommendations. Complete Phase 3 first."),
     [Event (data_store_load_phase_data session_id "phase1") (Ok form_data);
      Event (data_store_load_phase_data session_id "phase3") (Ok recommendations)], w2).
Proof.
  intros H1 H2 Hform Hrec. unfold phase4_routine_creation. simpl.
  rewrite H1. simpl. rewrite H2. simpl. rewrite Hform, Hrec. reflexivity.
Qed.

(** Phase 2 on an upload whose declared content type is not an image. *)
Lemma phase2_non_image (w w1 : W) (session_id : string) (file : UploadFile) (ct : string) :
  handle (data_store_session_exists session_id) w = (Ok true, w1) ->
  content_type file = Some ct ->
  startswith ct "image/" = false ->
  run handle (phase2_image_analysis lib session_id file) w =
    (Exc (HTTPException 400 "File must be an image (JPEG, PNG, etc.)"),
     [Event (data_store_session_exists session_id) (Ok true)], w1).
Proof.
  intros Hexists Hct Hprefix.
  unfold phase2_image_analysis, content_type_startswith. simpl.
  rewrite Hexists. simpl. rewrite Hct. simpl. rewrite Hprefix. reflexivity.
Qed.

(** C4. For a session the store knows, phase 2 answers an upload whose
    declared content type does not start with [image/] with the 400 error
    "File must be an image", whatever the content of the file; the only
    call made is the existence check, so the image-analysis service is not
    invoked and nothing is saved. *)
Theorem phase2_rejects_non_image (w w1 : W) (session_id : string) (file : UploadFile)
    (ct : string) :
  handle (data_store_session_exists session_id) w = (Ok true, w1) ->
  content_type file = Some ct ->
  startswith ct "image/" = false ->
  let r := run handle (phase2_image_analysis lib session_id file) w in
  r = (Exc (HTTPException 400 "File must be an image (JPEG, PNG, etc.)"),
       [Event (data_store_session_exists session_id) (Ok true)], w1)
  /\ (forall ev image_data, In ev (trace r) ->
        event_call ev <> phase2_service_analyze_face image_data)
  /\ saves (trace r) = [].
Proof.
  intros Hexists Hct Hprefix r. subst r.
  rewrite (phase2_non_image w w1 session_id file ct Hexists Hct Hprefix).
  split; [reflexivity | split].
  - intros ev image_data [<- | []]. discriminate.
  - reflexivity.
Qed.

(** C9. For a session the store knows, an upload with no declared content
    type makes the prefix check raise an [AttributeError], which the
    catch-all answers as the 500 error "Phase 2 failed: ..."; and the run
    that stops at the 400 error "File must be an image" right after the
    existence check happens exactly when a content type is declared and
    does not start with [image/]. *)
Theorem phase2_missing_content_type (w w1 : W) (session_id : string) (file : UploadFile) :
  handle (data_store_session_exists session_id) w = (Ok true, w1) ->
  (content_type file = None ->
   run handle (phase2_image_analysis lib session_id file) w =
     (Exc (HTTPException 500
             "Phase 2 failed: 'NoneType' object has no attribute 'startswith'"),
      [Event (data_store_session_exists session_id) (Ok true)], w1))
  /\ (run handle (phase2_image_analysis lib session_id file) w =
        (Exc (HTTPException 400 "File must be an image (JPEG, PNG, etc.)"),
         [Event (data_store_session_exists session_id) (Ok true)], w1)
      <-> exists ct, content_type file = Some ct /\ startswith ct "image/" = false).
Proof.
  intros Hexists. split.
  - intros Hnone. unfold phase2_image_analysis, content_type_startswith. simpl.
    rewrite Hexists. simpl. rewrite Hnone. reflexivity.
  - split.
    + unfold phase2_image_analysis, content_type_startswith. simpl.
      rewrite Hexists. simpl.
      destruct (content_type file) as [ct |] eqn:Hct; simpl.
      * destruct (startswith ct "image/") eqn:Hprefix; simpl.
        -- destruct (handle (phase2_service_analyze_face (content file)) w1) as [r w2].
           destruct (run handle _ w2) as [[out evs] w3]. intros H. discriminate H.
        -- intros _. exists ct. split; [reflexivity | exact Hprefix].
      * intros H. discriminate H.
    + intros (ct & Hct & Hprefix).
      apply (phase2_non_image w w1 session_id file ct Hexists Hct Hprefix).
Qed.


(** The boundary of phases 2, 3, 4 and of the status query: an
    [HTTPException] of the body goes through as it is, any other instance of
    [Exception] becomes the 500 error that carries the prefix and its
    message. *)
Lemma boundary_passes_http {A : Type} (body : py A) (prefix : string) (w w1 : W)
    (status_code : Z) (detail : string) (evs : list event) :
  run handle body w = (Exc (HTTPException status_code detail), evs, w1) ->
  run handle (try_except body (reraise_http lib prefix)) w =
    (Exc (HTTPException status_code detail), evs, w1).
Proof.
  intros Hbody. rewrite run_try_except, Hbody. simpl.
  rewrite app_nil_r. reflexivity.
Qed.

Lemma boundary_wraps_unexpected {A : Type} (body : py A) (prefix : string) (w w1 : W)
    (cls msg : string) (evs : list event) :
  run handle body w = (Exc (PyError cls msg), evs, w1) ->
  run handle (try_except body (reraise_http lib prefix)) w =
    (Exc (HTTPException 500 (prefix ++ msg)), evs, w1).
Proof.
  intros Hbody. rewrite run_try_except, Hbody. simpl.
  rewrite app_nil_r. reflexivity.
Qed.

(** The boundary of phase 1 has the catch-all only: every instance of
    [Exception] of the body, an [HTTPException] included, is wrapped. *)
Lemma phase1_boundary_wraps_all {A : Type} (body : py A) (w w1 : W) (e : exn)
    (evs : list event) :
  run handle body w = (Exc e, evs, w1) ->
  run handle
    (try_except body
       (fun e => Raise (HTTPException HTTP_500_INTERNAL_SERVER_ERROR
                          ("Phase 1 failed: " ++ str lib e)))) w =
    (Exc (HTTPException 500 ("Phase 1 failed: " ++ str lib e)), evs, w1).
Proof.
  intros Hbody.
  rewrite (run_try_except_raise handle body
             (fun e => HTTPException HTTP_500_INTERNAL_SERVER_ERROR
                         ("Phase 1 failed: " ++ str lib e)) w).
  rewrite Hbody. reflexivity.
Qed.

(** An event that is a save answered [False] can only be equal to a save
    answered [False]. *)
Lemma failed_save_inv (c : call) (r : result (ret c)) (session_id phase : string)
    (payload : json) :
  Event c r = Event (data_store_save_phase_data session_id phase payload) (Ok false) ->
  save_answer (Event c r) = Some (Ok false).
Proof. intros ->. reflexivity. Qed.

(** Walking through a run: answer the next call either way, and drop the
    events that cannot be the failed save. *)
Tactic Notation "answer_call" ident(r) ident(e) ident(w') :=
  match goal with
  | |- context [handle ?c ?w] => destruct (handle c w) as [[r | e | ? ?] w']; simpl in *
  end.

Ltac not_the_save H :=
  apply failed_save_inv in H; simpl in H; try discriminate H.

Ltac find_failed_save :=
  simpl; intros;
  repeat match goal with
  | H : _ \/ _ |- _ => destruct H as [H | H]
  | H : False |- _ => destruct H
  | H : Event _ _ = Event _ _ |- _ => not_the_save H
  | H : Some (Ok _) = Some (Ok false) |- _ => injection H as ->
  end.

(** C6. In each of the four phase endpoints, a run in which
    [save_phase_data] answered [False] ends in an error of status 500, never
    in a response: phases 2, 3 and 4 raise their own "Failed to save ...",
    and phase 1 raises it inside its catch-all, which wraps it under
    "Phase 1 failed: ". *)
Theorem failed_save_is_500 (w : W) (session_id phase : string) (payload : json) :
  (forall form_data,
     let r := run handle (phase1_form_analysis lib form_data) w in
     In (Event (data_store_save_phase_data session_id phase payload) (Ok false)) (trace r) ->
     outcome r = Exc (HTTPException 500
       ("Phase 1 failed: " ++ str_HTTPException lib 500 "Failed to save form data")))
  /\ (forall sid file,
     let r := run handle (phase2_image_analysis lib sid file) w in
     In (Event (data_store_save_phase_data session_id phase payload) (Ok false)) (trace r) ->
     outcome r = Exc (HTTPException 500 "Failed to save analysis data"))
  /\ (forall sid,
     let r := run handle (phase3_product_recommendations lib sid) w in
     In (Event (data_store_save_phase_data session_id phase payload) (Ok false)) (trace r) ->
     outcome r = Exc (HTTPException 500 "Failed to save recommendations"))
  /\ (forall sid,
     let r := run handle (phase4_routine_creation lib sid) w in
     In (Event (data_store_save_phase_data session_id phase payload) (Ok false)) (trace r) ->
     outcome r = Exc (HTTPException 500 "Failed to save routine")).
Proof.
  repeat split.
  - intros form_data r. subst r. unfold phase1_form_analysis. simpl.
    answer_call res e w1; [| find_failed_save | find_failed_save].
    answer_call sid e w2; [| find_failed_save | find_failed_save].
    answer_call success e w3; [| find_failed_save | find_failed_save].
    destruct success; find_failed_save. reflexivity.
  - intros sid file r. subst r.
    unfold phase2_image_analysis, content_type_startswith. simpl.
    answer_call found e w1; [| destruct e; find_failed_save | find_failed_save].
    destruct found; [| find_failed_save].
    destruct (content_type file) as [ct |]; [| find_failed_save].
    simpl. destruct (startswith ct "image/"); [| find_failed_save].
    simpl. answer_call analysis_result e w2; [| destruct e; find_failed_save | find_failed_save].
    destruct analysis_result as [body | analysis]; simpl.
    + destruct (json_loads lib body) as [analysis | e | cls msg];
      simpl; [| destruct e; find_failed_save | find_failed_save].
      answer_call success e w3; [| destruct e; find_failed_save | find_failed_save].
      destruct success; find_failed_save. reflexivity.
    + answer_call success e w3; [| destruct e; find_failed_save | find_failed_save].
      destruct success; find_failed_save. reflexivity.
  - intros sid r. subst r. unfold phase3_product_recommendations. simpl.
    answer_call form_data e w1; [| destruct e; find_failed_save | find_failed_save].
    answer_call analysis_data e w2; [| destruct e; find_failed_save | find_failed_save].
    destruct (truthy form_data); [| find_failed_save].
    simpl. destruct (truthy analysis_data); [| find_failed_save].
    simpl. destruct (py_get analysis_data "ai_output" analysis_data) as [skin | e | cls msg];
      simpl; [| destruct e; find_failed_save | find_failed_save].
    answer_call recommendations e w3; [| destruct e; find_failed_save | find_failed_save].
    answer_call success e w4; [| destruct e; find_failed_save | find_failed_save].
    destruct success; simpl; [| find_failed_save; reflexivity].
    destruct (ProductRecommendationResponse lib recommendations) as [response | e | cls msg];
      simpl; [| destruct e |]; find_failed_save.
  - intros sid r. subst r. unfold phase4_routine_creation. simpl.
    answer_call form_data e w1; [| destruct e; find_failed_save | find_failed_save].
    answer_call recommendations e w2; [| destruct e; find_failed_save | find_failed_save].
    destruct (truthy form_data); [| find_failed_save].
    simpl. destruct (truthy recommendations); [| find_failed_save].
    simpl. destruct (py_get recommendations "products" (JDict [])) as [products | e | cls msg];
      simpl; [| destruct e; find_failed_save | find_failed_save].
    answer_call routine_result e w3; [| destruct e; find_failed_save | find_failed_save].
    answer_call success e w4; [| destruct e; find_failed_save | find_failed_save].
    destruct success; simpl; [| find_failed_save; reflexivity].
    destruct (SkincareRoutineResponse lib routine_result) as [response | e | cls msg];
      simpl; [| destruct e |]; find_failed_save.
Qed.


(** The [if]/[elif] chain of the status endpoint is the scan of the four
    flags in their fixed order. *)
Lemma next_phase_of_scan (flag : string -> bool) :
  next_phase_of flag = first_incomplete flag.
Proof.
  unfold next_phase_of, first_incomplete, phase_labels. simpl.
  destruct (flag "phase1"); simpl; [| reflexivity].
  destruct (flag "phase2"); simpl; [| reflexivity].
  destruct (flag "phase3"); simpl; [| reflexivity].
  destruct (flag "phase4"); reflexivity.
Qed.

(** C5. For a session the store knows, the status query answers with a
    [next_phase] that is the label of the first phase, in the order phase1,
    phase2, phase3, phase4, whose completion flag is not set, or
    "Pipeline complete!" when all four are set; it makes two calls, the
    existence check and the status read, and none that writes to the
    store. *)
Theorem status_next_phase (w w1 w2 : W) (session_id : string) (status : json)
    (flags : list (string * json)) :
  handle (data_store_session_exists session_id) w = (Ok true, w1) ->
  handle (data_store_get_session_status session_id) w1 = (Ok status, w2) ->
  py_get status "phases" (JDict []) = Ok (JDict flags) ->
  let r := run handle (get_session_status lib session_id) w in
  let flag := fun phase => truthy (dict_get flags phase (JBool false)) in
  (exists body,
     outcome r = Ok (JDict body)
     /\ assoc "next_phase" body = Some (JStr (first_incomplete flag)))
  /\ trace r = [Event (data_store_session_exists session_id) (Ok true);
                Event (data_store_get_session_status session_id) (Ok status)]
  /\ Forall (fun ev => store_write (event_call ev) = false) (trace r)
  /\ final r = w2.
Proof.
  intros Hexists Hstatus Hphases r flag. subst r.
  unfold get_session_status. simpl. rewrite Hexists. simpl. rewrite Hstatus. simpl.
  destruct status as [| b | n | s | items | items]; simpl in Hphases; try discriminate Hphases.
  injection Hphases as Hphases. simpl. rewrite Hphases. simpl.
  rewrite next_phase_of_scan.
  split; [| split; [| split]].
  - eexists. split; reflexivity.
  - reflexivity.
  - repeat constructor.
  - reflexivity.
Qed.

Ltac no_response :=
  simpl; intros;
  match goal with
  | H : outcome _ = Ok _ |- _ => discriminate H
  | H : Exc _ = Ok _ |- _ => discriminate H
  end.

(** C2, as the code has it. A successful call of phase 1 or of phase 2
    answers with a dictionary that holds the session id, the status marker
    "success", the next phase and the payload just saved; a successful call
    of phase 3 or of phase 4 answers with the response model built from the
    payload just saved and nothing else. *)
Theorem successful_responses (w : W) :
  (forall form_data response,
     let r := run handle (phase1_form_analysis lib form_data) w in
     outcome r = Ok response ->
     exists session_id res,
       trace r = [Event (phase1_service_submit_form form_data) (Ok res);
                  Event data_store_create_session (Ok session_id);
                  Event (data_store_save_phase_data session_id "phase1"
                           (to_dict (result_stored_data res))) (Ok true)]
       /\ response = JDict [
            ("session_id", JStr session_id);
            ("status", JStr "success");
            ("message", JStr "Form data processed and saved successfully");
            ("next_phase", JStr "Phase 2: Upload facial image for analysis");
            ("form_index", result_form_index res);
            ("data", to_dict (result_stored_data res)) ])
  /\ (forall session_id file response,
     let r := run handle (phase2_image_analysis lib session_id file) w in
     outcome r = Ok response ->
     exists analysis_json,
       In (Event (data_store_save_phase_data session_id "phase2" analysis_json) (Ok true))
          (trace r)
       /\ response = JDict [
            ("session_id", JStr session_id);
            ("status", JStr "success");
            ("message", JStr "Image analysis completed and saved successfully");
            ("next_phase", JStr "Phase 3: Generate product recommendations");
            ("analysis", analysis_json) ])
  /\ (forall session_id response,
     let r := run handle (phase3_product_recommendations lib session_id) w in
     outcome r = Ok response ->
     exists recommendations,
       In (Event (data_store_save_phase_data session_id "phase3" recommendations) (Ok true))
          (trace r)
       /\ ProductRecommendationResponse lib recommendations = Ok response)
  /\ (forall session_id response,
     let r := run handle (phase4_routine_creation lib session_id) w in
     outcome r = Ok response ->
     exists routine_result,
       In (Event (data_store_save_phase_data session_id "phase4" routine_result) (Ok true))
          (trace r)
       /\ SkincareRoutineResponse lib routine_result = Ok response).
Proof.
  repeat split.
  - intros form_data response r. subst r. unfold phase1_form_analysis. simpl.
    answer_call res e w1; [| no_response | no_response].
    answer_call sid e w2; [| no_response | no_response].
    answer_call success e w3; [| no_response | no_response].
    destruct success; [| no_response].
    simpl. intros [= <-]. exists sid, res. split; reflexivity.
  - intros sid file response r. subst r.
    unfold phase2_image_analysis, content_type_startswith. simpl.
    answer_call found e w1; [| destruct e; no_response | no_response].
    destruct found; [| no_response].
    destruct (content_type file) as [ct |]; [| no_response].
    simpl. destruct (startswith ct "image/"); [| no_response].
    simpl. answer_call analysis_result e w2; [| destruct e; no_response | no_response].
    destruct analysis_result as [body | analysis]; simpl.
    + destruct (json_loads lib body) as [analysis | e | cls msg];
      simpl; [| destruct e; no_response | no_response].
      answer_call success e w3; [| destruct e; no_response | no_response].
      destruct success; [| no_response].
      simpl. intros [= <-]. exists analysis. split; [| reflexivity].
      right. right. left. reflexivity.
    + answer_call success e w3; [| destruct e; no_response | no_response].
      destruct success; [| no_response].
      simpl. intros [= <-]. exists analysis. split; [| reflexivity].
      right. right. left. reflexivity.
  - intros sid response r. subst r. unfold phase3_product_recommendations. simpl.
    answer_call form_data e w1; [| destruct e; no_response | no_response].
    answer_call analysis_data e w2; [| destruct e; no_response | no_response].
    destruct (truthy form_data); [| no_response].
    simpl. destruct (truthy analysis_data); [| no_response].
    simpl. destruct (py_get analysis_data "ai_output" analysis_data) as [skin | e | cls msg];
      simpl; [| destruct e; no_response | no_response].
    answer_call recommendations e w3; [| destruct e; no_response | no_response].
    answer_call success e w4; [| destruct e; no_response | no_response].
    destruct success; [| no_response].
    simpl.
    destruct (ProductRecommendationResponse lib recommendations) as [model | e | cls msg] eqn:Hmodel;
      simpl; [| destruct e; no_response | no_response].
    intros [= <-]. exists recommendations. split; [| exact Hmodel].
    right. right. right. left. reflexivity.
  - intros sid response r. subst r. unfold phase4_routine_creation. simpl.
    answer_call form_data e w1; [| destruct e; no_response | no_response].
    answer_call recommendations e w2; [| destruct e; no_response | no_response].
    destruct (truthy form_data); [| no_response].
    simpl. destruct (truthy recommendations); [| no_response].
    simpl. destruct (py_get recommendations "products" (JDict [])) as [products | e | cls msg];
      simpl; [| destruct e; no_response | no_response].
    answer_call routine_result e w3; [| destruct e; no_response | no_response].
    answer_call success e w4; [| destruct e; no_response | no_response].
    destruct success; [| no_response].
    simpl.
    destruct (SkincareRoutineResponse lib routine_result) as [model | e | cls msg] eqn:Hmodel;
      simpl; [| destruct e; no_response | no_response].
    intros [= <-]. exists routine_result. split; [| exact Hmodel].
    right. right. right. left. reflexivity.
Qed.

End RouterFacts.

(** ** The endpoints against the session store *)

Section StoreFacts.

Context (lib : Library) (svc : DataStore.Services).

Lemma load_absent (s : DataStore.Store) (session_id phase : string) :
  DataStore.payloads s !! (session_id, phase) = None ->
  DataStore.load_phase_data session_id phase s = JNull.
Proof. intros H. unfold DataStore.load_phase_data. rewrite H. reflexivity. Qed.

Lemma load_saved (s : DataStore.Store) (session_id phase : string) (payload : json) :
  DataStore.payloads s !! (session_id, phase) = Some payload ->
  DataStore.load_phase_data session_id phase s = payload.
Proof. intros H. unfold DataStore.load_phase_data. rewrite H. reflexivity. Qed.

(** C1, as the code has it. Phase 2 on a session that was never created
    fails with the 404 error that names phase 1; phase 3 with the payload of
    phase 1 or of phase 2 never saved, and phase 4 with the payload of
    phase 1 or of phase 3 never saved, fail with the 400 error that names
    phase 1 when the loaded payload of phase 1 is not truthy, and their
    second phase otherwise.  None of these runs makes a save, and the store
    is left as it was. *)
Theorem missing_prerequisite_fails_without_save (s : DataStore.Store) (session_id : string) :
  (forall file,
     session_id ∉ DataStore.created s ->
     let r := run (DataStore.handle svc) (phase2_image_analysis lib session_id file) s in
     outcome r = Exc (HTTPException 404 "Session not found. Complete Phase 1 first.")
     /\ saves (trace r) = [] /\ final r = s)
  /\ (DataStore.payloads s !! (session_id, "phase1") = None
      \/ DataStore.payloads s !! (session_id, "phase2") = None ->
      let r := run (DataStore.handle svc) (phase3_product_recommendations lib session_id) s in
      outcome r = Exc (HTTPException 400
        (if truthy (DataStore.load_phase_data session_id "phase1" s)
         then "Missing image analysis. Complete Phase 2 first."
         else "Missing form data. Complete Phase 1 first."))
      /\ saves (trace r) = [] /\ final r = s)
  /\ (DataStore.payloads s !! (session_id, "phase1") = None
      \/ DataStore.payloads s !! (session_id, "phase3") = None ->
      let r := run (DataStore.handle svc) (phase4_routine_creation lib session_id) s in
      outcome r = Exc (HTTPException 400
        (if truthy (DataStore.load_phase_data session_id "phase1" s)
         then "Missing product recommendations. Complete Phase 3 first."
         else "Missing form data. Complete Phase 1 first."))
      /\ saves (trace r) = [] /\ final r = s).
Proof.
  split; [| split].
  - intros file Hnew r. subst r.
    rewrite (phase2_unknown_session lib (DataStore.handle svc) s s session_id file).
    + repeat split.
    + simpl. unfold DataStore.session_exists. rewrite bool_decide_eq_false_2 by exact Hnew.
      reflexivity.
  - intros Hmissing r. subst r.
    destruct (truthy (DataStore.load_phase_data session_id "phase1" s)) eqn:Hform.
    + rewrite (phase3_missing_analysis lib (DataStore.handle svc) s s s session_id
                 (DataStore.load_phase_data session_id "phase1" s)
                 (DataStore.load_phase_data session_id "phase2" s));
        try reflexivity; try exact Hform.
      * repeat split.
      * destruct Hmissing as [H1 | H2].
        -- rewrite (load_absent _ _ _ H1) in Hform. discriminate Hform.
        -- rewrite (load_absent _ _ _ H2). reflexivity.
    + rewrite (phase3_missing_form lib (DataStore.handle svc) s s s session_id
                 (DataStore.load_phase_data session_id "phase1" s)
                 (DataStore.load_phase_data session_id "phase2" s));
        try reflexivity; try exact Hform.
      repeat split.
  - intros Hmissing r. subst r.
    destruct (truthy (DataStore.load_phase_data session_id "phase1" s)) eqn:Hform.
    + rewrite (phase4_missing_recommendations lib (DataStore.handle svc) s s s session_id
                 (DataStore.load_phase_data session_id "phase1" s)
                 (DataStore.load_phase_data session_id "phase3" s));
        try reflexivity; try exact Hform.
      * repeat split.
      * destruct Hmissing as [H1 | H3].
        -- rewrite (load_absent _ _ _ H1) in Hform. discriminate Hform.
        -- rewrite (load_absent _ _ _ H3). reflexivity.
    + rewrite (phase4_missing_form lib (DataStore.handle svc) s s s session_id
                 (DataStore.load_phase_data session_id "phase1" s)
                 (DataStore.load_phase_data session_id "phase3" s));
        try reflexivity; try exact Hform.
      repeat split.
Qed.

(** C8. The checks of phases 3 and 4 test truthiness: a required payload
    that was saved, but is not truthy (an empty JSON object, say), is
    answered like a payload never saved, with the 400 error "Missing ...",
    and the run stops after the two loads. *)
Theorem empty_payload_counts_as_missing (s : DataStore.Store) (session_id : string) (payload : json) :
  truthy payload = false ->
  (DataStore.payloads s !! (session_id, "phase1") = Some payload ->
   run (DataStore.handle svc) (phase3_product_recommendations lib session_id) s =
     (Exc (HTTPException 400 "Missing form data. Complete Phase 1 first."),
      [Event (data_store_load_phase_data session_id "phase1") (Ok payload);
       Event (data_store_load_phase_data session_id "phase2")
         (Ok (DataStore.load_phase_data session_id "phase2" s))], s)
   /\ run (DataStore.handle svc) (phase4_routine_creation lib session_id) s =
     (Exc (HTTPException 400 "Missing form data. Complete Phase 1 first."),
      [Event (data_store_load_phase_data session_id "phase1") (Ok payload);
       Event (data_store_load_phase_data session_id "phase3")
         (Ok (DataStore.load_phase_data session_id "phase3" s))], s))
  /\ (forall form_data,
      DataStore.payloads s !! (session_id, "phase1") = Some form_data ->
      truthy form_data = true ->
      (DataStore.payloads s !! (session_id, "phase2") = Some payload ->
       run (DataStore.handle svc) (phase3_product_recommendations lib session_id) s =
         (Exc (HTTPException 400 "Missing image analysis. Complete Phase 2 first."),
          [Event (data_store_load_phase_data session_id "phase1") (Ok form_data);
           Event (data_store_load_phase_data session_id "phase2") (Ok payload)], s))
      /\ (DataStore.payloads s !! (session_id, "phase3") = Some payload ->
       run (DataStore.handle svc) (phase4_routine_creation lib session_id) s =
         (Exc (HTTPException 400 "Missing product recommendations. Complete Phase 3 first."),
          [Event (data_store_load_phase_data session_id "phase1") (Ok form_data);
           Event (data_store_load_phase_data session_id "phase3") (Ok payload)], s))).
Proof.
  intros Hfalsy. split.
  - intros H1. split.
    + apply (phase3_missing_form lib (DataStore.handle svc) s s s); simpl; rewrite ?(load_saved _ _ _ _ H1);
        (reflexivity || exact Hfalsy).
    + apply (phase4_missing_form lib (DataStore.handle svc) s s s); simpl; rewrite ?(load_saved _ _ _ _ H1);
        (reflexivity || exact Hfalsy).
  - intros form_data H1 Hform. split.
    + intros H2. apply (phase3_missing_analysis lib (DataStore.handle svc) s s s); simpl;
        rewrite ?(load_saved _ _ _ _ H1), ?(load_saved _ _ _ _ H2);
        (reflexivity || assumption).
    + intros H3. apply (phase4_missing_recommendations lib (DataStore.handle svc) s s s); simpl;
        rewrite ?(load_saved _ _ _ _ H1), ?(load_saved _ _ _ _ H3);
        (reflexivity || assumption).
Qed.


(** C7. For a session that was created, whatever payloads are present, the
    status endpoint reports under [progress_percentage] the number
    [100 * DataStore.completed_count / 4], where [completed_count] counts the phases
    whose payload is present; the store is left as it was. *)
Theorem status_progress_percentage (s : DataStore.Store) (session_id : string) :
  session_id ∈ DataStore.created s ->
  let r := run (DataStore.handle svc) (get_session_status lib session_id) s in
  (exists body,
     outcome r = Ok (JDict body)
     /\ assoc "progress_percentage" body =
          Some (JNum (100 * Z.of_nat (DataStore.completed_count s session_id) / 4)))
  /\ final r = s.
Proof.
  intros Hcreated r. subst r.
  unfold get_session_status. simpl.
  unfold DataStore.session_exists. rewrite bool_decide_eq_true_2 by exact Hcreated.
  cbn -[DataStore.completed_count Z.mul Z.div]. split; [| reflexivity].
  eexists. split; [reflexivity |].
  cbn -[DataStore.completed_count Z.mul Z.div].
  rewrite (Z.mul_comm 100). reflexivity.
Qed.

(** C10. Phase 1 is not atomic: when the form service and
    [create_session] succeed and the save answers [False], the run ends in
    the 500 error after three calls (the form service, the creation of the
    session, the failed save), and the session id created on the way, which
    did not exist before, still exists in the store afterwards. *)
Theorem phase1_not_atomic (s : DataStore.Store) (form_data : json) (res : form_result)
    (rest : list bool) :
  DataStore.svc_submit_form svc form_data = Ok res ->
  DataStore.faults s = true :: rest ->
  let r := run (DataStore.handle svc) (phase1_form_analysis lib form_data) s in
  let session_id := fst (DataStore.create_session s) in
  outcome r = Exc (HTTPException 500
    ("Phase 1 failed: " ++ str_HTTPException lib 500 "Failed to save form data"))
  /\ trace r = [Event (phase1_service_submit_form form_data) (Ok res);
                Event data_store_create_session (Ok session_id);
                Event (data_store_save_phase_data session_id "phase1"
                         (to_dict (result_stored_data res))) (Ok false)]
  /\ DataStore.session_exists session_id s = false
  /\ DataStore.session_exists session_id (final r) = true.
Proof.
  intros Hform Hfaults r session_id. subst r session_id.
  unfold phase1_form_analysis. simpl. rewrite Hform. simpl.
  unfold DataStore.save_phase_data. simpl. rewrite Hfaults. simpl.
  repeat split.
  - unfold DataStore.session_exists. apply bool_decide_eq_false_2.
    apply fresh_string_of_set_fresh.
  - unfold DataStore.session_exists. apply bool_decide_eq_true_2. simpl.
    apply elem_of_union_l, elem_of_singleton. reflexivity.
Qed.

End StoreFacts.

(** ** The claims on the concrete world *)

(** C1, as the specification words it, fails: with the payload of phase 1
    saved as an empty object for session ["s1"] and the payload of phase 2
    never saved, phase 3 fails with the 400 error that names phase 1, the
    phase that is saved, and not phase 2, the phase that is missing. *)
Lemma phase3_names_a_saved_phase :
  DataStore.payloads (store_with [("phase1", JDict [])] []) !! ("s1", "phase1")
    = Some (JDict [])
  /\ DataStore.payloads (store_with [("phase1", JDict [])] []) !! ("s1", "phase2") = None
  /\ outcome (run sample_handle (phase3_product_recommendations starlette "s1")
                (store_with [("phase1", JDict [])] []))
     = Exc (HTTPException 400 "Missing form data. Complete Phase 1 first.")
  /\ outcome (run sample_handle (phase3_product_recommendations starlette "s1")
                (store_with [("phase1", JDict [])] []))
     <> Exc (HTTPException 400 "Missing image analysis. Complete Phase 2 first.").
Proof.
  repeat split; try (vm_compute; reflexivity).
  vm_compute. discriminate.
Qed.

(** C2, as the specification words it, fails: with phases 1 and 2 saved for
    session ["s1"], phase 3 succeeds and its response is the recommendation
    payload alone, in which there is no session id. *)
Lemma phase3_response_lacks_session_id :
  outcome (run sample_handle (phase3_product_recommendations starlette "s1")
             (store_with [("phase1", sample_form); ("phase2", sample_analysis)] []))
    = Ok sample_recommendations
  /\ ~ has_session_id "s1" sample_recommendations.
Proof.
  split.
  - vm_compute. reflexivity.
  - intros (items & Hitems & Hid). injection Hitems as <-. discriminate Hid.
Qed.

(** C3 at its failing input. Phase 1 has no [except HTTPException: raise]
    before its catch-all: on a store whose save fails, the 500 error
    "Failed to save form data" raised by the endpoint does not reach the
    client as it is, but wrapped under "Phase 1 failed: "; phase 2 on the
    same kind of store lets its own "Failed to save analysis data" through
    unchanged. *)
Theorem phase1_wraps_its_own_error :
  outcome (run sample_handle (phase1_form_analysis starlette sample_form) failing_store)
    = Exc (HTTPException 500 "Phase 1 failed: 500: Failed to save form data")
  /\ outcome (run sample_handle (phase2_image_analysis starlette "s1" png_upload)
                (store_with [("phase1", sample_form)] [true]))
    = Exc (HTTPException 500 "Failed to save analysis data").
Proof. split; vm_compute; reflexivity. Qed.

(** *** Instances of the theorems above *)

Lemma missing_prerequisite_fails_without_save_witness :
  (outcome (run sample_handle (phase2_image_analysis starlette "s2" png_upload)
              (store_with [("phase1", sample_form)] []))
     = Exc (HTTPException 404 "Session not found. Complete Phase 1 first."))
  /\ (outcome (run sample_handle (phase3_product_recommendations starlette "s1")
                 (store_with [("phase1", sample_form)] []))
        = Exc (HTTPException 400 "Missing image analysis. Complete Phase 2 first.")
      /\ saves (trace (run sample_handle (phase3_product_recommendations starlette "s1")
                         (store_with [("phase1", sample_form)] []))) = []
      /\ final (run sample_handle (phase3_product_recommendations starlette "s1")
                  (store_with [("phase1", sample_form)] []))
           = store_with [("phase1", sample_form)] [])
  /\ (outcome (run sample_handle (phase4_routine_creation starlette "s1")
                 (store_with [("phase1", sample_form); ("phase2", sample_analysis)] []))
        = Exc (HTTPException 400 "Missing product recommendations. Complete Phase 3 first.")).
Proof.
  split; [| split].
  - destruct (missing_prerequisite_fails_without_save starlette sample_services
                (store_with [("phase1", sample_form)] []) "s2") as (H2 & _ & _).
    apply (H2 png_upload). unfold store_with. simpl.
    intros Hin%elem_of_singleton. discriminate Hin.
  - destruct (missing_prerequisite_fails_without_save starlette sample_services
                (store_with [("phase1", sample_form)] []) "s1") as (_ & H3 & _).
    apply H3. right. vm_compute. reflexivity.
  - destruct (missing_prerequisite_fails_without_save starlette sample_services
                (store_with [("phase1", sample_form); ("phase2", sample_analysis)] []) "s1")
      as (_ & _ & H4).
    apply H4. right. vm_compute. reflexivity.
Defined.

Lemma successful_responses_witness :
  (exists session_id res,
     trace (run sample_handle (phase1_form_analysis starlette sample_form) empty_store)
       = [Event (phase1_service_submit_form sample_form) (Ok res);
          Event data_store_create_session (Ok session_id);
          Event (data_store_save_phase_data session_id "phase1"
                   (to_dict (result_stored_data res))) (Ok true)]
     /\ JDict [("session_id", JStr "session");
               ("status", JStr "success");
               ("message", JStr "Form data processed and saved successfully");
               ("next_phase", JStr "Phase 2: Upload facial image for analysis");
               ("form_index", JNum 0);
               ("data", sample_form)]
        = JDict [("session_id", JStr session_id);
                 ("status", JStr "success");
                 ("message", JStr "Form data processed and saved successfully");
                 ("next_phase", JStr "Phase 2: Upload facial image for analysis");
                 ("form_index", result_form_index res);
                 ("data", to_dict (result_stored_data res))])
  /\ (exists recommendations,
        In (Event (data_store_save_phase_data "s1" "phase3" recommendations) (Ok true))
           (trace (run sample_handle (phase3_product_recommendations starlette "s1")
                     (store_with [("phase1", sample_form); ("phase2", sample_analysis)] [])))
        /\ ProductRecommendationResponse starlette recommendations
             = Ok sample_recommendations).
Proof.
  split.
  - destruct (successful_responses starlette sample_handle empty_store) as (H1 & _).
    apply (H1 sample_form). vm_compute. reflexivity.
  - destruct (successful_responses starlette sample_handle
                (store_with [("phase1", sample_form); ("phase2", sample_analysis)] []))
      as (_ & _ & H3 & _).
    apply (H3 "s1"). vm_compute. reflexivity.
Defined.

Lemma phase2_rejects_non_image_witness :
  run sample_handle (phase2_image_analysis starlette "s1" pdf_upload)
    (store_with [("phase1", sample_form)] [])
  = (Exc (HTTPException 400 "File must be an image (JPEG, PNG, etc.)"),
     [Event (data_store_session_exists "s1") (Ok true)],
     store_with [("phase1", sample_form)] []).
Proof.
  apply (phase2_rejects_non_image starlette sample_handle
           (store_with [("phase1", sample_form)] []) (store_with [("phase1", sample_form)] [])
           "s1" pdf_upload "application/pdf").
  - vm_compute. reflexivity.
  - reflexivity.
  - reflexivity.
Defined.

Lemma status_next_phase_witness :
  exists body,
    outcome (run sample_handle (get_session_status starlette "s1")
               (store_with [("phase1", sample_form)] [])) = Ok (JDict body)
    /\ assoc "next_phase" body = Some (JStr "Phase 2: Upload facial image").
Proof.
  destruct (status_next_phase starlette sample_handle
              (store_with [("phase1", sample_form)] [])
              (store_with [("phase1", sample_form)] [])
              (store_with [("phase1", sample_form)] [])
              "s1"
              (DataStore.get_session_status "s1" (store_with [("phase1", sample_form)] []))
              [("phase1", JBool true); ("phase2", JBool false);
               ("phase3", JBool false); ("phase4", JBool false)])
    as ((body & Hbody & Hnext) & _).
  - vm_compute. reflexivity.
  - reflexivity.
  - vm_compute. reflexivity.
  - exists body. split; [exact Hbody | exact Hnext].
Defined.

Lemma failed_save_is_500_witness :
  outcome (run sample_handle (phase1_form_analysis starlette sample_form) failing_store)
    = Exc (HTTPException 500 "Phase 1 failed: 500: Failed to save form data")
  /\ outcome (run sample_handle (phase3_product_recommendations starlette "s1")
                (store_with [("phase1", sample_form); ("phase2", sample_analysis)] [true]))
    = Exc (HTTPException 500 "Failed to save recommendations").
Proof.
  split.
  - destruct (failed_save_is_500 starlette sample_handle failing_store
                "session" "phase1" sample_form) as (H1 & _).
    apply (H1 sample_form). vm_compute. right. right. left. reflexivity.
  - destruct (failed_save_is_500 starlette sample_handle
                (store_with [("phase1", sample_form); ("phase2", sample_analysis)] [true])
                "s1" "phase3" sample_recommendations) as (_ & _ & H3 & _).
    apply (H3 "s1"). vm_compute. right. right. right. left. reflexivity.
Defined.

Lemma status_progress_percentage_witness :
  exists body,
    outcome (run sample_handle (get_session_status starlette "s1")
               (store_with [("phase1", sample_form); ("phase2", sample_analysis)] []))
      = Ok (JDict body)
    /\ assoc "progress_percentage" body = Some (JNum 50).
Proof.
  destruct (status_progress_percentage starlette sample_services
              (store_with [("phase1", sample_form); ("phase2", sample_analysis)] []) "s1")
    as ((body & Hbody & Hprogress) & _).
  - unfold store_with. simpl. apply elem_of_singleton. reflexivity.
  - exists body. split; [exact Hbody |]. rewrite Hprogress. vm_compute. reflexivity.
Defined.

Lemma empty_payload_counts_as_missing_witness :
  outcome (run sample_handle (phase3_product_recommendations starlette "s1")
             (store_with [("phase1", JDict []); ("phase2", sample_analysis)] []))
    = Exc (HTTPException 400 "Missing form data. Complete Phase 1 first.")
  /\ outcome (run sample_handle (phase4_routine_creation starlette "s1")
                (store_with [("phase1", sample_form); ("phase3", JDict [])] []))
    = Exc (HTTPException 400 "Missing product recommendations. Complete Phase 3 first.").
Proof.
  split.
  - destruct (empty_payload_counts_as_missing starlette sample_services
                (store_with [("phase1", JDict []); ("phase2", sample_analysis)] [])
                "s1" (JDict []) eq_refl) as (H1 & _).
    destruct H1 as (H3 & _); [vm_compute; reflexivity |].
    unfold sample_handle. rewrite H3. reflexivity.
  - destruct (empty_payload_counts_as_missing starlette sample_services
                (store_with [("phase1", sample_form); ("phase3", JDict [])] [])
                "s1" (JDict []) eq_refl) as (_ & H2).
    destruct (H2 sample_form) as (_ & H4); [vm_compute; reflexivity | reflexivity |].
    unfold sample_handle. rewrite H4; [reflexivity | vm_compute; reflexivity].
Defined.

Lemma phase2_missing_content_type_witness :
  run sample_handle (phase2_image_analysis starlette "s1" untyped_upload)
    (store_with [("phase1", sample_form)] [])
  = (Exc (HTTPException 500
            "Phase 2 failed: 'NoneType' object has no attribute 'startswith'"),
     [Event (data_store_session_exists "s1") (Ok true)],
     store_with [("phase1", sample_form)] []).
Proof.
  destruct (phase2_missing_content_type starlette sample_handle
              (store_with [("phase1", sample_form)] [])
              (store_with [("phase1", sample_form)] []) "s1" untyped_upload) as (Hnone & _).
  - vm_compute. reflexivity.
  - apply Hnone. reflexivity.
Defined.

Lemma phase1_not_atomic_witness :
  outcome (run sample_handle (phase1_form_analysis starlette sample_form) failing_store)
    = Exc (HTTPException 500 "Phase 1 failed: 500: Failed to save form data")
  /\ DataStore.session_exists "session" failing_store = false
  /\ DataStore.session_exists "session"
       (final (run sample_handle (phase1_form_analysis starlette sample_form) failing_store))
     = true.
Proof.
  destruct (phase1_not_atomic starlette sample_services failing_store sample_form
              {| result_stored_data := Model sample_form; result_form_index := JNum 0 |} [])
    as (Hout & _ & Hbefore & Hafter).
  - reflexivity.
  - reflexivity.
  - split; [exact Hout | split; [exact Hbefore | exact Hafter]].
Defined.

(** ** Further properties of the endpoints, against any store and services *)

Section EndpointFacts.

Context (lib : Library) {W : Type} (handle : forall c : call, W -> result (ret c) * W).

(** Walking through every branch of a run. *)
Ltac walk :=
  repeat (simpl in *;
          match goal with
          | |- context [handle ?c ?w] =>
              let Hc := fresh "Hcall" in
              destruct (handle c w) as [[? | [] | ? ?] ?] eqn:Hc
          | |- context [raise_if (negb ?b) _] => destruct b eqn:?
          | |- context [lift ?x] => destruct x as [? | [] | ? ?] eqn:?
          | |- context [match ?x with _ => _ end] =>
              match type of x with
              | bool => destruct x eqn:?
              | result _ => destruct x as [? | [] | ? ?] eqn:?
              | option _ => destruct x eqn:?
              | analysis_result => destruct x
              end
          end);
  unfold outcome, trace, final in *; simpl in *.

(** Picking the event of a trace that a hypothesis talks about. *)
Ltac pick_event :=
  simpl in *;
  repeat match goal with
  | H : _ \/ _ |- _ => destruct H as [H | H]
  | H : False |- _ => destruct H
  | H : Event _ _ = ?ev |- _ => subst ev; simpl in *
  end.


(** The status query on a session the store does not know: the 404 error
    "Session not found" after the existence check alone. *)
Theorem status_unknown_session (w w1 : W) (session_id : string) :
  handle (data_store_session_exists session_id) w = (Ok false, w1) ->
  run handle (get_session_status lib session_id) w =
    (Exc (HTTPException 404 "Session not found"),
     [Event (data_store_session_exists session_id) (Ok false)], w1).
Proof.
  intros Hexists. unfold get_session_status. simpl. rewrite Hexists. reflexivity.
Qed.

(** The status query on a status without the key "phases": no phase counts
    as completed, the next phase is phase 1, and a missing
    "progress_percentage" reads as 0. *)
Theorem status_missing_keys (w w1 w2 : W) (session_id : string)
    (items : list (string * json)) :
  handle (data_store_session_exists session_id) w = (Ok true, w1) ->
  handle (data_store_get_session_status session_id) w1 = (Ok (JDict items), w2) ->
  assoc "phases" items = None ->
  outcome (run handle (get_session_status lib session_id) w) =
    Ok (JDict [
      ("session_id", JStr session_id);
      ("completed_phases", JList []);
      ("total_phases", JNum 4);
      ("progress_percentage", dict_get items "progress_percentage" (JNum 0));
      ("next_phase", JStr "Phase 1: Submit form data");
      ("phase_details", JDict []);
      ("pipeline_complete", JBool false) ]).
Proof.
  intros Hexists Hstatus Hphases.
  assert (Hget : dict_get items "phases" (JDict []) = JDict [])
    by (unfold dict_get; rewrite Hphases; reflexivity).
  unfold get_session_status. simpl. rewrite Hexists. simpl. rewrite Hstatus. simpl.
  rewrite !Hget. reflexivity.
Qed.

(** The status query on a malformed status: a status that is not a [dict],
    or whose "phases" is not a [dict], ends in the 500 error
    "Status check failed: ..." that carries the [AttributeError]. *)
Theorem status_malformed (w w1 w2 : W) (session_id : string) (status : json) :
  handle (data_store_session_exists session_id) w = (Ok true, w1) ->
  handle (data_store_get_session_status session_id) w1 = (Ok status, w2) ->
  ((forall items, status <> JDict items) ->
   outcome (run handle (get_session_status lib session_id) w) =
     Exc (HTTPException 500
            ("Status check failed: '" ++ type_name status
             ++ "' object has no attribute 'get'")))
  /\ (forall items phases,
        status = JDict items ->
        assoc "phases" items = Some phases ->
        (forall flags, phases <> JDict flags) ->
        outcome (run handle (get_session_status lib session_id) w) =
          Exc (HTTPException 500
                 ("Status check failed: '" ++ type_name phases
                  ++ "' object has no attribute 'items'"))).
Proof.
  intros Hexists Hstatus. split.
  - intros Hshape. unfold get_session_status. simpl.
    rewrite Hexists. simpl. rewrite Hstatus. simpl.
    destruct status; try reflexivity. destruct (Hshape items eq_refl).
  - intros items phases -> Hphases Hshape. unfold get_session_status. simpl.
    assert (Hget : dict_get items "phases" (JDict []) = phases)
      by (unfold dict_get; rewrite Hphases; reflexivity).
    rewrite Hexists. simpl. rewrite Hstatus. simpl. rewrite !Hget.
    destruct phases; try reflexivity. destruct (Hshape items0 eq_refl).
Qed.


Lemma completed_phases_keys (flags : list (string * json)) :
  map (fun '(phase, _) => JStr phase)
      (List.filter (fun '(_, completed) => truthy completed) flags)
  = map JStr (truthy_keys flags).
Proof.
  unfold truthy_keys. induction flags as [| [phase completed] rest IH]; simpl.
  - reflexivity.
  - destruct (truthy completed); simpl; [f_equal |]; exact IH.
Qed.

(** The status query on a well-formed status: the completed phases are the
    keys of "phases" whose flag is truthy, in the order of the status; the
    pipeline counts as complete when there are exactly four of them; the
    flags and the progress are handed on as they are. *)
Theorem status_response_fields (w w1 w2 : W) (session_id : string)
    (items flags : list (string * json)) :
  handle (data_store_session_exists session_id) w = (Ok true, w1) ->
  handle (data_store_get_session_status session_id) w1 = (Ok (JDict items), w2) ->
  assoc "phases" items = Some (JDict flags) ->
  exists body,
    outcome (run handle (get_session_status lib session_id) w) = Ok (JDict body)
    /\ assoc "session_id" body = Some (JStr session_id)
    /\ assoc "completed_phases" body = Some (JList (map JStr (truthy_keys flags)))
    /\ assoc "total_phases" body = Some (JNum 4)
    /\ assoc "progress_percentage" body
         = Some (dict_get items "progress_percentage" (JNum 0))
    /\ assoc "phase_details" body = Some (JDict flags)
    /\ assoc "pipeline_complete" body
         = Some (JBool (Z.of_nat (length (truthy_keys flags)) =? 4)).
Proof.
  intros Hexists Hstatus Hphases.
  assert (Hget : dict_get items "phases" (JDict []) = JDict flags)
    by (unfold dict_get; rewrite Hphases; reflexivity).
  unfold get_session_status. simpl. rewrite Hexists. simpl. rewrite Hstatus. simpl.
  rewrite !Hget. simpl. rewrite !completed_phases_keys.
  eexists. split; [reflexivity |].
  simpl. rewrite !length_map. repeat split.
Qed.

(** With the four phase flags and nothing else in "phases", the two marks
    of completion agree: [pipeline_complete] is true exactly when the next
    phase is "Pipeline complete!", which is exactly when the four flags are
    truthy. *)
Theorem status_complete_consistent (w w1 w2 : W) (session_id : string)
    (items : list (string * json)) (f1 f2 f3 f4 : json) :
  handle (data_store_session_exists session_id) w = (Ok true, w1) ->
  handle (data_store_get_session_status session_id) w1 = (Ok (JDict items), w2) ->
  assoc "phases" items
    = Some (JDict [("phase1", f1); ("phase2", f2); ("phase3", f3); ("phase4", f4)]) ->
  exists body,
    outcome (run handle (get_session_status lib session_id) w) = Ok (JDict body)
    /\ (assoc "pipeline_complete" body = Some (JBool true)
        <-> assoc "next_phase" body = Some (JStr "Pipeline complete!"))
    /\ (assoc "pipeline_complete" body = Some (JBool true)
        <-> truthy f1 && truthy f2 && truthy f3 && truthy f4 = true).
Proof.
  intros Hexists Hstatus Hphases.
  assert (Hget : dict_get items "phases" (JDict [])
                 = JDict [("phase1", f1); ("phase2", f2); ("phase3", f3); ("phase4", f4)])
    by (unfold dict_get; rewrite Hphases; reflexivity).
  unfold get_session_status. simpl. rewrite Hexists. simpl. rewrite Hstatus. simpl.
  rewrite !Hget. simpl.
  eexists. split; [reflexivity |].
  unfold next_phase_of, dict_get. simpl.
  destruct (truthy f1), (truthy f2), (truthy f3), (truthy f4); simpl;
    split; split; intros H; (reflexivity || discriminate H).
Qed.

(** The two marks are computed differently: [pipeline_complete] counts every
    truthy entry of "phases", the next phase looks at the four phase keys
    only.  One more truthy entry beside four truthy phase flags gives
    "Pipeline complete!" with [pipeline_complete] false. *)
Theorem status_extra_flag (w w1 w2 : W) (session_id : string)
    (items : list (string * json)) (f1 f2 f3 f4 : json) (key : string) (extra : json) :
  handle (data_store_session_exists session_id) w = (Ok true, w1) ->
  handle (data_store_get_session_status session_id) w1 = (Ok (JDict items), w2) ->
  assoc "phases" items
    = Some (JDict [("phase1", f1); ("phase2", f2); ("phase3", f3); ("phase4", f4);
                   (key, extra)]) ->
  truthy f1 = true -> truthy f2 = true -> truthy f3 = true -> truthy f4 = true ->
  truthy extra = true ->
  exists body,
    outcome (run handle (get_session_status lib session_id) w) = Ok (JDict body)
    /\ assoc "next_phase" body = Some (JStr "Pipeline complete!")
    /\ assoc "pipeline_complete" body = Some (JBool false).
Proof.
  intros Hexists Hstatus Hphases H1 H2 H3 H4 Hextra.
  assert (Hget : dict_get items "phases" (JDict [])
                 = JDict [("phase1", f1); ("phase2", f2); ("phase3", f3); ("phase4", f4);
                          (key, extra)])
    by (unfold dict_get; rewrite Hphases; reflexivity).
  unfold get_session_status. simpl. rewrite Hexists. simpl. rewrite Hstatus. simpl.
  rewrite !Hget. simpl.
  eexists. split; [reflexivity |].
  unfold next_phase_of, dict_get. simpl.
  rewrite H1, H2, H3, H4, Hextra. simpl. split; reflexivity.
Qed.

(** What the services of phases 3 and 4 are given: the form as loaded, and
    the "ai_output" of the loaded analysis (the whole analysis when it has no
    such key), respectively the "products" of the loaded recommendations (an
    empty dictionary when they have no such key).  The service is only
    called when both loaded payloads are truthy. *)
Theorem service_inputs (w : W) (session_id : string) :
  (forall ev input,
     let r := run handle (phase3_product_recommendations lib session_id) w in
     In ev (trace r) ->
     event_call ev = phase3_service_budget_distribution input ->
     exists form_data items,
       In (Event (data_store_load_phase_data session_id "phase1") (Ok form_data)) (trace r)
       /\ In (Event (data_store_load_phase_data session_id "phase2") (Ok (JDict items)))
            (trace r)
       /\ truthy form_data = true /\ items <> []
       /\ input = JDict [("form_data", form_data);
                         ("skin_analysis", dict_get items "ai_output" (JDict items))])
  /\ (forall ev input,
     let r := run handle (phase4_routine_creation lib session_id) w in
     In ev (trace r) ->
     event_call ev = phase4_service_create_routine input ->
     exists form_data items,
       In (Event (data_store_load_phase_data session_id "phase1") (Ok form_data)) (trace r)
       /\ In (Event (data_store_load_phase_data session_id "phase3") (Ok (JDict items)))
            (trace r)
       /\ truthy form_data = true /\ items <> []
       /\ input = JDict [("form_data", form_data);
                         ("product_recommendations", dict_get items "products" (JDict []))]).
Proof.
  split; intros ev input r; subst r.
  - unfold phase3_product_recommendations. walk.
    all: intros Hin Hev; pick_event; try discriminate Hev.
    all: injection Hev as <-.
    all: match goal with
         | H : py_get ?v _ _ = Ok _ |- _ => destruct v; simpl in H; simplify_eq
         end.
    all: match goal with
         | H : truthy (JDict ?items) = true |- _ => destruct items; [discriminate H |]
         end.
    all: eexists _, _; repeat split; eauto; discriminate.
  - unfold phase4_routine_creation. walk.
    all: intros Hin Hev; pick_event; try discriminate Hev.
    all: injection Hev as <-.
    all: match goal with
         | H : py_get ?v _ _ = Ok _ |- _ => destruct v; simpl in H; simplify_eq
         end.
    all: match goal with
         | H : truthy (JDict ?items) = true |- _ => destruct items; [discriminate H |]
         end.
    all: eexists _, _; repeat split; eauto; discriminate.
Qed.

(** A loaded payload that is truthy but not a dictionary (a non-empty list,
    say): phase 3 and phase 4 fail on its [get] with the 500 error
    "Phase N failed: ..." right after the two loads, before any service call
    or save. *)
Theorem non_dict_payload_is_500 (w w1 w2 : W) (session_id : string)
    (form_data payload : json) :
  truthy form_data = true ->
  truthy payload = true ->
  (forall items, payload <> JDict items) ->
  (handle (data_store_load_phase_data session_id "phase1") w = (Ok form_data, w1) ->
   handle (data_store_load_phase_data session_id "phase2") w1 = (Ok payload, w2) ->
   run handle (phase3_product_recommendations lib session_id) w =
     (Exc (HTTPException 500
             ("Phase 3 failed: '" ++ type_name payload ++ "' object has no attribute 'get'")),
      [Event (data_store_load_phase_data session_id "phase1") (Ok form_data);
       Event (data_store_load_phase_data session_id "phase2") (Ok payload)], w2))
  /\ (handle (data_store_load_phase_data session_id "phase1") w = (Ok form_data, w1) ->
   handle (data_store_load_phase_data session_id "phase3") w1 = (Ok payload, w2) ->
   run handle (phase4_routine_creation lib session_id) w =
     (Exc (HTTPException 500
             ("Phase 4 failed: '" ++ type_name payload ++ "' object has no attribute 'get'")),
      [Event (data_store_load_phase_data session_id "phase1") (Ok form_data);
       Event (data_store_load_phase_data session_id "phase3") (Ok payload)], w2)).
Proof.
  intros Hform Hpayload Hshape. split; intros H1 H2.
  - unfold phase3_product_recommendations. simpl.
    rewrite H1. simpl. rewrite H2. simpl. rewrite Hform, Hpayload. simpl.
    destruct payload; try reflexivity. destruct (Hshape items eq_refl).
  - unfold phase4_routine_creation. simpl.
    rewrite H1. simpl. rewrite H2. simpl. rewrite Hform, Hpayload. simpl.
    destruct payload; try reflexivity. destruct (Hshape items eq_refl).
Qed.

(** Phases 3 and 4 save before they build the response: once the save has
    answered [True], the outcome is what the response model makes of the
    saved payload, so a payload the model refuses is already in the store
    when the client gets the error. *)
Theorem saved_before_validation (w : W) (session_id : string) :
  (forall ev sid phase payload,
     let r := run handle (phase3_product_recommendations lib session_id) w in
     In ev (trace r) ->
     event_call ev = data_store_save_phase_data sid phase payload ->
     save_answer ev = Some (Ok true) ->
     outcome r = match ProductRecommendationResponse lib payload with
                 | Ok response => Ok response
                 | Exc e => Exc (boundary "Phase 3 failed: " e)
                 | BaseExc cls msg => BaseExc cls msg
                 end)
  /\ (forall ev sid phase payload,
     let r := run handle (phase4_routine_creation lib session_id) w in
     In ev (trace r) ->
     event_call ev = data_store_save_phase_data sid phase payload ->
     save_answer ev = Some (Ok true) ->
     outcome r = match SkincareRoutineResponse lib payload with
                 | Ok response => Ok response
                 | Exc e => Exc (boundary "Phase 4 failed: " e)
                 | BaseExc cls msg => BaseExc cls msg
                 end).
Proof.
  split; intros ev sid phase payload r; subst r.
  - unfold phase3_product_recommendations. walk.
    all: intros Hin Hev Hanswer; pick_event; try discriminate Hev; try discriminate Hanswer.
    all: injection Hev as <- <- <-.
    all: congruence.
  - unfold phase4_routine_creation. walk.
    all: intros Hin Hev Hanswer; pick_event; try discriminate Hev; try discriminate Hanswer.
    all: injection Hev as <- <- <-.
    all: congruence.
Qed.

Lemma boundary_is_http {A : Type} (body : py A) (prefix : string) (w : W) (e : exn) :
  outcome (run handle (try_except body (reraise_http lib prefix)) w) = Exc e ->
  exists status_code detail, e = HTTPException status_code detail.
Proof.
  rewrite run_try_except.
  destruct (run handle body w)
    as [[[a | [status_code detail | cls msg] | cls msg] evs] w1];
    unfold outcome; simpl; intros H; simplify_eq; eauto.
Qed.

Lemma catch_all_is_500 {A : Type} (body : py A) (prefix : string) (w : W) (e : exn) :
  outcome (run handle
             (try_except body
                (fun e => Raise (HTTPException HTTP_500_INTERNAL_SERVER_ERROR
                                   (prefix ++ str lib e)))) w) = Exc e ->
  exists detail, e = HTTPException 500 (prefix ++ detail).
Proof.
  rewrite (run_try_except_raise handle body
             (fun e => HTTPException HTTP_500_INTERNAL_SERVER_ERROR (prefix ++ str lib e))).
  destruct (run handle body w) as [[[a | cause | cls msg] evs] w1];
    unfold outcome; simpl; intros H; simplify_eq; eauto.
Qed.

(** A call that fails with an exception that is not an instance of
    [Exception] ends the run of whatever surrounds it, [try] included, with
    that exception. *)
Lemma escape_in_bind {A B : Type} (p : py A) (f : A -> py B) (w : W) (cls msg : string) :
  outcome (run handle p w) = BaseExc cls msg ->
  outcome (run handle (bind p f) w) = BaseExc cls msg.
Proof.
  rewrite run_bind.
  destruct (run handle p w) as [[[a | e | cls' msg'] evs] w1];
    unfold outcome; simpl; intros H; simplify_eq. reflexivity.
Qed.

Lemma escape_through_try {A : Type} (body : py A) (h : exn -> py A) (w : W)
    (cls msg : string) :
  outcome (run handle body w) = BaseExc cls msg ->
  outcome (run handle (try_except body h) w) = BaseExc cls msg.
Proof.
  rewrite run_try_except.
  destruct (run handle body w) as [[[a | e | cls' msg'] evs] w1];
    unfold outcome; simpl; intros H; simplify_eq. reflexivity.
Qed.

(** What an endpoint lets out.  A failure that is an instance of
    [Exception] is always an [HTTPException], and for phase 1 and the
    listing one of status 500 under the endpoint's own prefix.  An exception
    that is not an instance of [Exception], raised by any call of any
    endpoint ([asyncio.CancelledError] at an [await], say), is caught by no
    clause and goes out as it is. *)
Theorem failures_at_the_boundary (w : W) :
  (forall form_data,
     let r := run handle (phase1_form_analysis lib form_data) w in
     (forall e, outcome r = Exc e ->
        exists detail, e = HTTPException 500 ("Phase 1 failed: " ++ detail))
     /\ (forall ev cls msg, In ev (trace r) ->
          event_failure ev = Some (Escaped cls msg) -> outcome r = BaseExc cls msg))
  /\ (forall session_id file,
     let r := run handle (phase2_image_analysis lib session_id file) w in
     (forall e, outcome r = Exc e ->
        exists status_code detail, e = HTTPException status_code detail)
     /\ (forall ev cls msg, In ev (trace r) ->
          event_failure ev = Some (Escaped cls msg) -> outcome r = BaseExc cls msg))
  /\ (forall session_id,
     let r := run handle (phase3_product_recommendations lib session_id) w in
     (forall e, outcome r = Exc e ->
        exists status_code detail, e = HTTPException status_code detail)
     /\ (forall ev cls msg, In ev (trace r) ->
          event_failure ev = Some (Escaped cls msg) -> outcome r = BaseExc cls msg))
  /\ (forall session_id,
     let r := run handle (phase4_routine_creation lib session_id) w in
     (forall e, outcome r = Exc e ->
        exists status_code detail, e = HTTPException status_code detail)
     /\ (forall ev cls msg, In ev (trace r) ->
          event_failure ev = Some (Escaped cls msg) -> outcome r = BaseExc cls msg))
  /\ (forall session_id,
     let r := run handle (get_session_status lib session_id) w in
     (forall e, outcome r = Exc e ->
        exists status_code detail, e = HTTPException status_code detail)
     /\ (forall ev cls msg, In ev (trace r) ->
          event_failure ev = Some (Escaped cls msg) -> outcome r = BaseExc cls msg))
  /\ (let r := run handle (list_forms lib) w in
     (forall e, outcome r = Exc e ->
        exists detail, e = HTTPException 500 ("Failed to list forms: " ++ detail))
     /\ (forall ev cls msg, In ev (trace r) ->
          event_failure ev = Some (Escaped cls msg) -> outcome r = BaseExc cls msg)).
Proof.
  split; [| split; [| split; [| split; [| split]]]].
  - intros form_data r. subst r. split.
    + intros e. apply catch_all_is_500.
    + intros ev cls msg. unfold phase1_form_analysis. walk.
      all: intros Hin Hev; pick_event; try discriminate Hev.
      all: injection Hev as <- <-; reflexivity.
  - intros session_id file r. subst r. split.
    + intros e. apply boundary_is_http.
    + intros ev cls msg. unfold phase2_image_analysis. walk.
      all: intros Hin Hev; pick_event; try discriminate Hev.
      all: injection Hev as <- <-; reflexivity.
  - intros session_id r. subst r. split.
    + intros e. apply boundary_is_http.
    + intros ev cls msg. unfold phase3_product_recommendations. walk.
      all: intros Hin Hev; pick_event; try discriminate Hev.
      all: injection Hev as <- <-; reflexivity.
  - intros session_id r. subst r. split.
    + intros e. apply boundary_is_http.
    + intros ev cls msg. unfold phase4_routine_creation. walk.
      all: intros Hin Hev; pick_event; try discriminate Hev.
      all: injection Hev as <- <-; reflexivity.
  - intros session_id r. subst r. split.
    + intros e. apply boundary_is_http.
    + intros ev cls msg. unfold get_session_status. walk.
      all: intros Hin Hev; pick_event; try discriminate Hev.
      all: injection Hev as <- <-; reflexivity.
  - intros r. subst r. split.
    + intros e. apply catch_all_is_500.
    + intros ev cls msg. unfold list_forms. walk.
      all: intros Hin Hev; pick_event; try discriminate Hev.
      all: injection Hev as <- <-; reflexivity.
Qed.

(** Each phase endpoint saves at most once, and only under its own phase
    name: phase 1 under the session id that [create_session] has just
    answered, phases 2, 3 and 4 under the session id of the request. *)
Theorem save_discipline (w : W) :
  (forall form_data,
     let r := run handle (phase1_form_analysis lib form_data) w in
     (length (saves (trace r)) <= 1)%nat
     /\ forall ev, In ev (trace r) -> is_save ev = true ->
          exists session_id payload,
            In (Event data_store_create_session (Ok session_id)) (trace r)
            /\ event_call ev = data_store_save_phase_data session_id "phase1" payload)
  /\ (forall session_id file,
     let r := run handle (phase2_image_analysis lib session_id file) w in
     (length (saves (trace r)) <= 1)%nat
     /\ forall ev, In ev (trace r) -> is_save ev = true ->
          exists payload,
            event_call ev = data_store_save_phase_data session_id "phase2" payload)
  /\ (forall session_id,
     let r := run handle (phase3_product_recommendations lib session_id) w in
     (length (saves (trace r)) <= 1)%nat
     /\ forall ev, In ev (trace r) -> is_save ev = true ->
          exists payload,
            event_call ev = data_store_save_phase_data session_id "phase3" payload)
  /\ (forall session_id,
     let r := run handle (phase4_routine_creation lib session_id) w in
     (length (saves (trace r)) <= 1)%nat
     /\ forall ev, In ev (trace r) -> is_save ev = true ->
          exists payload,
            event_call ev = data_store_save_phase_data session_id "phase4" payload).
Proof.
  split; [| split; [| split]].
  - intros form_data r. subst r. unfold phase1_form_analysis. walk.
    all: split; [lia |].
    all: intros ev Hin Hsave; pick_event; try discriminate Hsave; eauto 6.
  - intros session_id file r. subst r. unfold phase2_image_analysis. walk.
    all: split; [lia |].
    all: intros ev Hin Hsave; pick_event; try discriminate Hsave; eauto.
  - intros session_id r. subst r. unfold phase3_product_recommendations. walk.
    all: split; [lia |].
    all: intros ev Hin Hsave; pick_event; try discriminate Hsave; eauto.
  - intros session_id r. subst r. unfold phase4_routine_creation. walk.
    all: split; [lia |].
    all: intros ev Hin Hsave; pick_event; try discriminate Hsave; eauto.
Qed.

(** The status query and the listing never write to the store, and a
    session is only ever created by phase 1: phases 2, 3 and 4 make no
    [create_session] call. *)
Theorem writes_are_confined (w : W) :
  (forall session_id ev,
     In ev (trace (run handle (get_session_status lib session_id) w)) ->
     store_write (event_call ev) = false)
  /\ (forall ev,
     In ev (trace (run handle (list_forms lib) w)) ->
     store_write (event_call ev) = false)
  /\ (forall session_id file ev,
     In ev (trace (run handle (phase2_image_analysis lib session_id file) w)) ->
     event_call ev <> data_store_create_session)
  /\ (forall session_id ev,
     In ev (trace (run handle (phase3_product_recommendations lib session_id) w)) ->
     event_call ev <> data_store_create_session)
  /\ (forall session_id ev,
     In ev (trace (run handle (phase4_routine_creation lib session_id) w)) ->
     event_call ev <> data_store_create_session).
Proof.
  split; [| split; [| split; [| split]]].
  - intros session_id ev. unfold get_session_status. walk.
    all: intros Hin; pick_event; reflexivity.
  - intros ev. unfold list_forms. walk.
    all: intros Hin; pick_event; reflexivity.
  - intros session_id file ev. unfold phase2_image_analysis. walk.
    all: intros Hin; pick_event; discriminate.
  - intros session_id ev. unfold phase3_product_recommendations. walk.
    all: intros Hin; pick_event; discriminate.
  - intros session_id ev. unfold phase4_routine_creation. walk.
    all: intros Hin; pick_event; discriminate.
Qed.

(** What is saved is what the service of the phase answered: the stored
    form of phase 1 (through [dict()] when it has one), the analysis of
    phase 2 (parsed from the body when the service answers with a response
    object), the recommendations of phase 3, the routine of phase 4. *)
Theorem saved_payload_is_service_output (w : W) (sid phase : string) (payload : json) :
  (forall form_data ev,
     let r := run handle (phase1_form_analysis lib form_data) w in
     In ev (trace r) ->
     event_call ev = data_store_save_phase_data sid phase payload ->
     exists res,
       In (Event (phase1_service_submit_form form_data) (Ok res)) (trace r)
       /\ payload = to_dict (result_stored_data res))
  /\ (forall session_id file ev,
     let r := run handle (phase2_image_analysis lib session_id file) w in
     In ev (trace r) ->
     event_call ev = data_store_save_phase_data sid phase payload ->
     exists answer,
       In (Event (phase2_service_analyze_face (content file)) (Ok answer)) (trace r)
       /\ match answer with
          | WithBody body => json_loads lib body = Ok payload
          | Direct analysis => analysis = payload
          end)
  /\ (forall session_id ev,
     let r := run handle (phase3_product_recommendations lib session_id) w in
     In ev (trace r) ->
     event_call ev = data_store_save_phase_data sid phase payload ->
     exists input,
       In (Event (phase3_service_budget_distribution input) (Ok payload)) (trace r))
  /\ (forall session_id ev,
     let r := run handle (phase4_routine_creation lib session_id) w in
     In ev (trace r) ->
     event_call ev = data_store_save_phase_data sid phase payload ->
     exists input,
       In (Event (phase4_service_create_routine input) (Ok payload)) (trace r)).
Proof.
  split; [| split; [| split]].
  - intros form_data ev r. subst r. unfold phase1_form_analysis. walk.
    all: intros Hin Hev; pick_event; try discriminate Hev.
    all: injection Hev as <- <- <-; eauto 6.
  - intros session_id file ev r. subst r. unfold phase2_image_analysis. walk.
    all: intros Hin Hev; pick_event; try discriminate Hev.
    all: injection Hev as <- <- <-; eexists; split; [eauto 6 | simpl; eauto].
  - intros session_id ev r. subst r. unfold phase3_product_recommendations. walk.
    all: intros Hin Hev; pick_event; try discriminate Hev.
    all: injection Hev as <- <- <-; eauto 8.
  - intros session_id ev r. subst r. unfold phase4_routine_creation. walk.
    all: intros Hin Hev; pick_event; try discriminate Hev.
    all: injection Hev as <- <- <-; eauto 8.
Qed.

(** A call that fails ends the run of a phase.  When it raised an instance
    of [Exception], the client gets what the boundary makes of it: phase 1
    wraps every such exception, the other phases let an [HTTPException]
    through and wrap the rest.  When it raised an exception that is not an
    instance of [Exception] ([asyncio.CancelledError] at an [await], say),
    that exception goes out as it is.  Either way no save has answered
    [True]. *)
Theorem collaborator_failure_saves_nothing (w : W) (ev : event) (f : failure) :
  event_failure ev = Some f ->
  (forall form_data,
     let r := run handle (phase1_form_analysis lib form_data) w in
     In ev (trace r) ->
     outcome r = surfaced (fun e => HTTPException 500 ("Phase 1 failed: " ++ str lib e)) f
     /\ forall ev', In ev' (trace r) -> save_answer ev' <> Some (Ok true))
  /\ (forall session_id file,
     let r := run handle (phase2_image_analysis lib session_id file) w in
     In ev (trace r) ->
     outcome r = surfaced (boundary "Phase 2 failed: ") f
     /\ forall ev', In ev' (trace r) -> save_answer ev' <> Some (Ok true))
  /\ (forall session_id,
     let r := run handle (phase3_product_recommendations lib session_id) w in
     In ev (trace r) ->
     outcome r = surfaced (boundary "Phase 3 failed: ") f
     /\ forall ev', In ev' (trace r) -> save_answer ev' <> Some (Ok true))
  /\ (forall session_id,
     let r := run handle (phase4_routine_creation lib session_id) w in
     In ev (trace r) ->
     outcome r = surfaced (boundary "Phase 4 failed: ") f
     /\ forall ev', In ev' (trace r) -> save_answer ev' <> Some (Ok true)).
Proof.
  intros Hfailure. split; [| split; [| split]].
  - intros form_data r. subst r. unfold phase1_form_analysis. walk.
    all: intros Hin; pick_event; try discriminate Hfailure.
    all: injection Hfailure as <-; split; [reflexivity |].
    all: intros ev' Hin'; pick_event; discriminate.
  - intros session_id file r. subst r. unfold phase2_image_analysis. walk.
    all: intros Hin; pick_event; try discriminate Hfailure.
    all: injection Hfailure as <-; split; [reflexivity |].
    all: intros ev' Hin'; pick_event; discriminate.
  - intros session_id r. subst r. unfold phase3_product_recommendations. walk.
    all: intros Hin; pick_event; try discriminate Hfailure.
    all: injection Hfailure as <-; split; [reflexivity |].
    all: intros ev' Hin'; pick_event; discriminate.
  - intros session_id r. subst r. unfold phase4_routine_creation. walk.
    all: intros Hin; pick_event; try discriminate Hfailure.
    all: injection Hfailure as <-; split; [reflexivity |].
    all: intros ev' Hin'; pick_event; discriminate.
Qed.



End EndpointFacts.

(** ** The whole pipeline on the session store *)

Section PipelineFacts.

Context (lib : Library) (svc : DataStore.Services).









End PipelineFacts.

(** *** Instances of the further properties *)


Lemma status_unknown_session_witness :
  run sample_handle (get_session_status starlette "s2")
    (store_with [("phase1", sample_form)] [])
  = (Exc (HTTPException 404 "Session not found"),
     [Event (data_store_session_exists "s2") (Ok false)],
     store_with [("phase1", sample_form)] []).
Proof.
  apply (status_unknown_session starlette sample_handle
           (store_with [("phase1", sample_form)] [])
           (store_with [("phase1", sample_form)] []) "s2").
  vm_compute. reflexivity.
Defined.

Lemma status_missing_keys_witness :
  outcome (run (stub_handle (Ok (JDict []))) (get_session_status starlette "s1") tt)
  = Ok (JDict [
      ("session_id", JStr "s1");
      ("completed_phases", JList []);
      ("total_phases", JNum 4);
      ("progress_percentage", JNum 0);
      ("next_phase", JStr "Phase 1: Submit form data");
      ("phase_details", JDict []);
      ("pipeline_complete", JBool false) ]).
Proof.
  apply (status_missing_keys starlette (stub_handle (Ok (JDict []))) tt tt tt "s1" []);
    reflexivity.
Defined.

Lemma status_malformed_witness :
  outcome (run (stub_handle (Ok JNull)) (get_session_status starlette "s1") tt)
    = Exc (HTTPException 500
             "Status check failed: 'NoneType' object has no attribute 'get'")
  /\ outcome (run (stub_handle (Ok (JDict [("phases", JList [JStr "phase1"])])))
                (get_session_status starlette "s1") tt)
    = Exc (HTTPException 500
             "Status check failed: 'list' object has no attribute 'items'").
Proof.
  split.
  - destruct (status_malformed starlette (stub_handle (Ok JNull)) tt tt tt "s1" JNull
                eq_refl eq_refl) as (Hshape & _).
    apply Hshape. intros items. discriminate.
  - destruct (status_malformed starlette
                (stub_handle (Ok (JDict [("phases", JList [JStr "phase1"])]))) tt tt tt "s1"
                (JDict [("phases", JList [JStr "phase1"])]) eq_refl eq_refl)
      as (_ & Hphases).
    apply (Hphases [("phases", JList [JStr "phase1"])] (JList [JStr "phase1"]));
      [reflexivity | reflexivity |].
    intros flags. discriminate.
Defined.

Lemma status_response_fields_witness :
  exists body,
    outcome (run sample_handle (get_session_status starlette "s1")
               (store_with [("phase1", sample_form); ("phase2", sample_analysis)] []))
      = Ok (JDict body)
    /\ assoc "completed_phases" body = Some (JList [JStr "phase1"; JStr "phase2"])
    /\ assoc "pipeline_complete" body = Some (JBool false).
Proof.
  destruct (status_response_fields starlette sample_handle
              (store_with [("phase1", sample_form); ("phase2", sample_analysis)] [])
              (store_with [("phase1", sample_form); ("phase2", sample_analysis)] [])
              (store_with [("phase1", sample_form); ("phase2", sample_analysis)] [])
              "s1"
              [("phases", JDict [("phase1", JBool true); ("phase2", JBool true);
                                 ("phase3", JBool false); ("phase4", JBool false)]);
               ("progress_percentage", JNum 50)]
              [("phase1", JBool true); ("phase2", JBool true);
               ("phase3", JBool false); ("phase4", JBool false)])
    as (body & Hbody & _ & Hcompleted & _ & _ & _ & Hcomplete).
  - vm_compute. reflexivity.
  - vm_compute. reflexivity.
  - reflexivity.
  - exists body. split; [exact Hbody | split; [exact Hcompleted | exact Hcomplete]].
Defined.

Lemma status_complete_consistent_witness :
  exists body,
    outcome (run sample_handle (get_session_status starlette "s1")
               (store_with [("phase1", sample_form); ("phase2", sample_analysis);
                            ("phase3", sample_recommendations);
                            ("phase4", sample_routine)] []))
      = Ok (JDict body)
    /\ (assoc "pipeline_complete" body = Some (JBool true)
        <-> assoc "next_phase" body = Some (JStr "Pipeline complete!")).
Proof.
  destruct (status_complete_consistent starlette sample_handle
              (store_with [("phase1", sample_form); ("phase2", sample_analysis);
                           ("phase3", sample_recommendations);
                           ("phase4", sample_routine)] [])
              (store_with [("phase1", sample_form); ("phase2", sample_analysis);
                           ("phase3", sample_recommendations);
                           ("phase4", sample_routine)] [])
              (store_with [("phase1", sample_form); ("phase2", sample_analysis);
                           ("phase3", sample_recommendations);
                           ("phase4", sample_routine)] [])
              "s1"
              [("phases", JDict [("phase1", JBool true); ("phase2", JBool true);
                                 ("phase3", JBool true); ("phase4", JBool true)]);
               ("progress_percentage", JNum 100)]
              (JBool true) (JBool true) (JBool true) (JBool true))
    as (body & Hbody & Hmarks & _).
  - vm_compute. reflexivity.
  - vm_compute. reflexivity.
  - reflexivity.
  - exists body. split; [exact Hbody | exact Hmarks].
Defined.

Lemma status_extra_flag_witness :
  exists body,
    outcome (run (stub_handle
                    (Ok (JDict [("phases",
                                 JDict [("phase1", JBool true); ("phase2", JBool true);
                                        ("phase3", JBool true); ("phase4", JBool true);
                                        ("phase5", JBool true)])])))
               (get_session_status starlette "s1") tt)
      = Ok (JDict body)
    /\ assoc "next_phase" body = Some (JStr "Pipeline complete!")
    /\ assoc "pipeline_complete" body = Some (JBool false).
Proof.
  apply (status_extra_flag starlette
           (stub_handle
              (Ok (JDict [("phases",
                           JDict [("phase1", JBool true); ("phase2", JBool true);
                                  ("phase3", JBool true); ("phase4", JBool true);
                                  ("phase5", JBool true)])])))
           tt tt tt "s1"
           [("phases",
             JDict [("phase1", JBool true); ("phase2", JBool true);
                    ("phase3", JBool true); ("phase4", JBool true);
                    ("phase5", JBool true)])]
           (JBool true) (JBool true) (JBool true) (JBool true) "phase5" (JBool true));
    reflexivity.
Defined.

Lemma service_inputs_witness :
  exists form_data items,
    In (Event (data_store_load_phase_data "s1" "phase2") (Ok (JDict items)))
       (trace (run sample_handle (phase3_product_recommendations starlette "s1")
                 (store_with [("phase1", sample_form); ("phase2", sample_analysis)] [])))
    /\ truthy form_data = true
    /\ JDict [("form_data", sample_form); ("skin_analysis", JDict [("acne", JBool true)])]
       = JDict [("form_data", form_data);
                ("skin_analysis", dict_get items "ai_output" (JDict items))].
Proof.
  destruct (service_inputs starlette sample_handle
              (store_with [("phase1", sample_form); ("phase2", sample_analysis)] []) "s1")
    as (H3 & _).
  destruct (H3 (Event (phase3_service_budget_distribution
                         (JDict [("form_data", sample_form);
                                 ("skin_analysis", JDict [("acne", JBool true)])]))
                      (Ok sample_recommendations))
               (JDict [("form_data", sample_form);
                       ("skin_analysis", JDict [("acne", JBool true)])]))
    as (form_data & items & _ & Hload & Htruthy & _ & Hinput).
  - vm_compute. right. right. left. reflexivity.
  - reflexivity.
  - exists form_data, items. split; [exact Hload | split; [exact Htruthy | exact Hinput]].
Defined.

Lemma non_dict_payload_is_500_witness :
  outcome (run sample_handle (phase3_product_recommendations starlette "s1")
             (store_with [("phase1", sample_form); ("phase2", JList [JNum 1])] []))
  = Exc (HTTPException 500 "Phase 3 failed: 'list' object has no attribute 'get'").
Proof.
  destruct (non_dict_payload_is_500 starlette sample_handle
              (store_with [("phase1", sample_form); ("phase2", JList [JNum 1])] [])
              (store_with [("phase1", sample_form); ("phase2", JList [JNum 1])] [])
              (store_with [("phase1", sample_form); ("phase2", JList [JNum 1])] [])
              "s1" sample_form (JList [JNum 1]) eq_refl eq_refl) as (H3 & _).
  - intros items. discriminate.
  - rewrite H3; [reflexivity | vm_compute; reflexivity ..].
Defined.

Lemma saved_before_validation_witness :
  outcome (run sample_handle (phase3_product_recommendations strict_models "s1")
             (store_with [("phase1", sample_form); ("phase2", sample_analysis)] []))
  = Exc (HTTPException 500
           "Phase 3 failed: 1 validation error for ProductRecommendationResponse")
  /\ DataStore.load_phase_data "s1" "phase3"
       (final (run sample_handle (phase3_product_recommendations strict_models "s1")
                 (store_with [("phase1", sample_form); ("phase2", sample_analysis)] [])))
     = sample_recommendations.
Proof.
  split; [| vm_compute; reflexivity].
  destruct (saved_before_validation strict_models sample_handle
              (store_with [("phase1", sample_form); ("phase2", sample_analysis)] []) "s1")
    as (H3 & _).
  apply (H3 (Event (data_store_save_phase_data "s1" "phase3" sample_recommendations)
                   (Ok true))
            "s1" "phase3" sample_recommendations).
  - vm_compute. right. right. right. left. reflexivity.
  - reflexivity.
  - reflexivity.
Defined.

Lemma failures_at_the_boundary_witness :
  (exists detail,
     HTTPException 500 "Phase 1 failed: 500: Failed to save form data"
     = HTTPException 500 ("Phase 1 failed: " ++ detail))
  /\ outcome (run (cancelling_handle "phase2") (phase3_product_recommendations starlette "s1")
                tt)
     = BaseExc "CancelledError" "".
Proof.
  split.
  - destruct (failures_at_the_boundary starlette sample_handle failing_store) as (H1 & _).
    destruct (H1 sample_form) as (Hexc & _).
    apply (Hexc (HTTPException 500 "Phase 1 failed: 500: Failed to save form data")).
    vm_compute. reflexivity.
  - destruct (failures_at_the_boundary starlette (cancelling_handle "phase2") tt)
      as (_ & _ & H3 & _).
    destruct (H3 "s1") as (_ & Hescape).
    apply (Hescape (Event (data_store_load_phase_data "s1" "phase2")
                          (BaseExc "CancelledError" ""))).
    + vm_compute. right. left. reflexivity.
    + reflexivity.
Defined.

Lemma save_discipline_witness :
  exists session_id payload,
    In (Event data_store_create_session (Ok session_id))
       (trace (run sample_handle (phase1_form_analysis starlette sample_form) empty_store))
    /\ data_store_save_phase_data "session" "phase1" sample_form
       = data_store_save_phase_data session_id "phase1" payload.
Proof.
  destruct (save_discipline starlette sample_handle empty_store) as (H1 & _).
  destruct (H1 sample_form) as (_ & Hsaves).
  apply (Hsaves (Event (data_store_save_phase_data "session" "phase1" sample_form)
                       (Ok true))).
  - vm_compute. right. right. left. reflexivity.
  - reflexivity.
Defined.

Lemma writes_are_confined_witness :
  store_write (data_store_get_session_status "s1") = false
  /\ data_store_load_phase_data "s1" "phase1" <> data_store_create_session.
Proof.
  destruct (writes_are_confined starlette sample_handle
              (store_with [("phase1", sample_form)] [])) as (Hstatus & _ & _ & H3 & _).
  split.
  - apply (Hstatus "s1"
             (Event (data_store_get_session_status "s1")
                    (Ok (DataStore.get_session_status "s1"
                           (store_with [("phase1", sample_form)] []))))).
    vm_compute. right. left. reflexivity.
  - apply (H3 "s1" (Event (data_store_load_phase_data "s1" "phase1") (Ok sample_form))).
    vm_compute. left. reflexivity.
Defined.

Lemma saved_payload_is_service_output_witness :
  exists input,
    In (Event (phase3_service_budget_distribution input) (Ok sample_recommendations))
       (trace (run sample_handle (phase3_product_recommendations starlette "s1")
                 (store_with [("phase1", sample_form); ("phase2", sample_analysis)] []))).
Proof.
  destruct (saved_payload_is_service_output starlette sample_handle
              (store_with [("phase1", sample_form); ("phase2", sample_analysis)] [])
              "s1" "phase3" sample_recommendations) as (_ & _ & H3 & _).
  apply (H3 "s1" (Event (data_store_save_phase_data "s1" "phase3" sample_recommendations)
                        (Ok true))).
  - vm_compute. right. right. right. left. reflexivity.
  - reflexivity.
Defined.

Lemma collaborator_failure_saves_nothing_witness :
  outcome (run (stub_handle (Ok JNull)) (phase2_image_analysis starlette "s1" png_upload) tt)
    = Exc (HTTPException 500 "Phase 2 failed: service unavailable")
  /\ outcome (run (cancelling_handle "phase3") (phase4_routine_creation starlette "s1") tt)
    = BaseExc "CancelledError" "".
Proof.
  split.
  - destruct (collaborator_failure_saves_nothing starlette (stub_handle (Ok JNull)) tt
                (Event (phase2_service_analyze_face "PNG")
                       (Exc (PyError "ConnectionError" "service unavailable")))
                (Raised (PyError "ConnectionError" "service unavailable")) eq_refl)
      as (_ & H2 & _).
    destruct (H2 "s1" png_upload) as (Hout & _).
    + vm_compute. right. left. reflexivity.
    + exact Hout.
  - destruct (collaborator_failure_saves_nothing starlette (cancelling_handle "phase3") tt
                (Event (data_store_load_phase_data "s1" "phase3")
                       (BaseExc "CancelledError" ""))
                (Escaped "CancelledError" "") eq_refl)
      as (_ & _ & _ & H4).
    destruct (H4 "s1") as (Hout & _).
    + vm_compute. right. left. reflexivity.
    + exact Hout.
Defined.


